(** * URL Content Scraper: a shallow embedding of [app.py]

    The development follows the script top to bottom:

    - [Py]       the fragment of Python the script relies on: values,
                 truthiness, [len], slicing, [dict.get], [str.split],
                 [str.lower], the [in] test on strings, and exceptions;
    - [Requests] the part of the [requests] library [scrape_url] calls;
    - [Pandas]   data frames as the script uses them;
    - [App]      the effects of the script (a log of what it does, then a
                 value or a raised exception), [scrape_url],
                 [read_urls_from_file], the scrape loop, the result tabs
                 and the main flow;
    - the vocabulary of the properties and the inputs of the scenarios;
    - the lemmas and, one block per property, the theorems.

    Strings are ASCII strings: one [ascii] stands for one character, so
    [String.length] is Python's [len] and [lower] is [str.lower].  Time is
    rational: the delay between requests is a [Qc]. *)

From Stdlib Require Import ZArith QArith Qcanon String Ascii List.
From Stdlib Require Import Floats.SpecFloat.
From stdpp Require Import base numbers strings list gmap pretty.

Set Warnings "-register-all".
Local Open Scope string_scope.

(* ===================================================================== *)
(** ** Python values, exceptions and effects                              *)
(* ===================================================================== *)

Module Py.

(** A Python object as it reaches the script: what [json] decoding and
    [Series.tolist()] produce.  [PNone] is [None]; floats keep their
    IEEE class so that [nan] and [0.0] can be told apart; [PObject] is
    any other object, known by the name of its type (the [Timestamp] of
    a date cell of a workbook). *)
Inductive pyval : Type :=
| PNone
| PBool (b : bool)
| PInt (z : Z)
| PFloat (f : spec_float)
| PStr (s : string)
| PList (l : list pyval)
| PDict (d : gmap string pyval)
| PObject (cls : string).

(** [bool(v)]: the truth value Python gives [v] in an [if]. *)
Definition truthy (v : pyval) : bool :=
  match v with
  | PNone => false
  | PBool b => b
  | PInt z => negb (z =? 0)%Z
  | PFloat f => match f with S754_zero _ => false | _ => true end
  | PStr s => negb (String.eqb s "")
  | PList l => match l with [] => false | _ => true end
  | PDict d => negb (Nat.eqb (size d) 0)
  | PObject _ => true
  end.

(** The exception classes that occur, and the two handlers of the script:
    [except requests.exceptions.RequestException] and [except Exception]. *)
Inductive exn_class : Type :=
| RequestException | ConnectionError | Timeout | HTTPError | JSONDecodeError
| TypeError | AttributeError | IndexError | KeyError | ValueError
| UnicodeError
| ParserError
| RecursionError
| DuplicateWidgetID.

Record exn : Type := Exn { exn_cls : exn_class; exn_msg : string }.

(** [str(e)] *)
Definition str_exn (e : exn) : string := exn_msg e.

(** [isinstance(e, requests.exceptions.RequestException)] *)
Definition is_RequestException (e : exn) : bool :=
  match exn_cls e with
  | RequestException | ConnectionError | Timeout | HTTPError
  | JSONDecodeError => true
  | _ => false
  end.

(** [isinstance(e, Exception)]: every class above derives from it. *)
Definition is_Exception (e : exn) : bool := true.

(** Pure evaluation that may raise. *)
Definition res (A : Type) : Type := exn + A.

Definition type_name (v : pyval) : string :=
  match v with
  | PNone => "NoneType" | PBool _ => "bool" | PInt _ => "int"
  | PFloat _ => "float" | PStr _ => "str" | PList _ => "list"
  | PDict _ => "dict" | PObject cls => cls
  end.

(** [len(v)] *)
Definition py_len (v : pyval) : res nat :=
  match v with
  | PStr s => inr (String.length s)
  | PList l => inr (length l)
  | PDict d => inr (size d)
  | _ => inl (Exn TypeError
                ("object of type '" +:+ type_name v +:+ "' has no len()"))
  end.

(** [v[:n]] *)
Definition py_slice_to (n : nat) (v : pyval) : res pyval :=
  match v with
  | PStr s => inr (PStr (substring 0 n s))
  | PList l => inr (PList (take n l))
  | _ => inl (Exn TypeError
                ("'" +:+ type_name v +:+ "' object is not subscriptable"))
  end.

(** [v + "..."], the only use of [+] on objects in the script. *)
Definition py_add_str (v : pyval) (suffix : string) : res pyval :=
  match v with
  | PStr s => inr (PStr (s +:+ suffix))
  | _ => inl (Exn TypeError
                ("unsupported operand type(s) for +: '" +:+ type_name v
                 +:+ "' and 'str'"))
  end.

(** [v.get(key, default)]: only a [dict] has the method. *)
Definition py_get (v : pyval) (key : string) (default : pyval) : res pyval :=
  match v with
  | PDict d => inr (match d !! key with Some x => x | None => default end)
  | _ => inl (Exn AttributeError
                ("'" +:+ type_name v +:+ "' object has no attribute 'get'"))
  end.

(** [v[key]] for a string key. *)
Definition py_item (v : pyval) (key : string) : res pyval :=
  match v with
  | PDict d => match d !! key with
               | Some x => inr x
               | None => inl (Exn KeyError key)
               end
  | _ => inl (Exn TypeError
                ("'" +:+ type_name v +:+ "' object is not subscriptable"))
  end.

(** The first of two findings. *)
Definition first_of (found later : option string) : option string :=
  match found with
  | Some cls => Some cls
  | None => later
  end.

(** The object [json.dumps] stops at, by the name of its type: an
    object other than [None], a boolean, a number, a string, a list or
    a dictionary.  Python goes through a dictionary in insertion order,
    which the map does not record: of several such objects in one
    dictionary the model names one. *)
Fixpoint unserialisable (v : pyval) : option string :=
  match v with
  | PObject cls => Some cls
  | PList l => foldr (λ x later, first_of (unserialisable x) later) None l
  | PDict d =>
      map_fold (λ _ x later, first_of (unserialisable x) later) None d
  | _ => None
  end.


(** [json.dumps(v)]: the text written stays abstract and the object
    itself stands for it. *)
Definition json_dumps (v : pyval) : res pyval :=
  match unserialisable v with
  | None => inr v
  | Some cls =>
      inl (Exn TypeError
             ("Object of type " +:+ cls +:+ " is not JSON serializable"))
  end.

(** *** Strings *)

Definition lower_ascii (c : ascii) : ascii :=
  let n := nat_of_ascii c in
  if ((65 <=? n)%nat && (n <=? 90)%nat)%bool then ascii_of_nat (n + 32) else c.

(** [s.lower()] *)
Fixpoint lower (s : string) : string :=
  match s with
  | EmptyString => EmptyString
  | String c s' => String (lower_ascii c) (lower s')
  end.

(** [s.split(sep)] for a one-character separator: never empty. *)
Fixpoint split (sep : ascii) (s : string) : list string :=
  match s with
  | EmptyString => [EmptyString]
  | String c s' =>
      if Ascii.eqb c sep then EmptyString :: split sep s'
      else match split sep s' with
           | [] => [String c EmptyString]
           | w :: ws => String c w :: ws
           end
  end.

(** [l[-1]] on the non-empty list [split] returns. *)
Definition last_item (l : list string) : string := List.last l EmptyString.

(** [needle in s] *)
Fixpoint contains (needle s : string) : bool :=
  String.prefix needle s ||
  match s with
  | EmptyString => false
  | String _ s' => contains needle s'
  end.

(** [x in [a, b]] on strings *)
Definition str_in (x : string) (l : list string) : bool :=
  existsb (String.eqb x) l.

End Py.
Export Py.

(* ===================================================================== *)
(** ** The [requests] library, as far as [scrape_url] uses it             *)
(* ===================================================================== *)

Module Requests.

(** What [requests.request(method, url, headers=..., data=...)] sends.
    [req_data] is the object handed to [json.dumps]. *)
Record request : Type := Request {
  req_method : string;
  req_url : string;
  req_headers : list (string * string);
  req_data : pyval
}.

(** Why a body is not JSON: the fields of [json.JSONDecodeError]. *)
Record decode_error : Type := DecodeError {
  de_msg : string; de_lineno : nat; de_colno : nat; de_pos : nat
}.

(** What decoding the body of a response as JSON gives: the decoded
    object; a [JSONDecodeError], for a body that is not JSON; or another
    exception raised by the decoder on a body it cannot read (a
    [RecursionError] for a body nested too deep, a [ValueError] for an
    integer of too many digits). *)
Inductive decoding : Type :=
| Json (v : pyval)
| NotJson (d : decode_error)
| DecoderRaises (e : exn).

(** A [requests.Response]: the status line, the final URL and what
    decoding the body as JSON gives. *)
Record response : Type := Response {
  status_code : Z;
  reason : string;
  resp_url : string;
  body : decoding
}.

(** [Response.raise_for_status()]: an [HTTPError] for a 4xx or a 5xx status
    and nothing otherwise. *)
Definition raise_for_status (r : response) : res unit :=
  let http_error_msg :=
    if ((400 <=? status_code r) && (status_code r <? 500))%Z then
      pretty (status_code r) +:+ " Client Error: " +:+ reason r
        +:+ " for url: " +:+ resp_url r
    else if ((500 <=? status_code r) && (status_code r <? 600))%Z then
      pretty (status_code r) +:+ " Server Error: " +:+ reason r
        +:+ " for url: " +:+ resp_url r
    else "" in
  if negb (String.eqb http_error_msg "")
  then inl (Exn HTTPError http_error_msg)
  else inr tt.

(** [str] of a [JSONDecodeError]: "msg: line l column c (char p)". *)
Definition decode_error_str (d : decode_error) : string :=
  de_msg d +:+ ": line " +:+ pretty (de_lineno d) +:+ " column "
    +:+ pretty (de_colno d) +:+ " (char " +:+ pretty (de_pos d) +:+ ")".

(** [Response.json()]: the decoded body; for a body that is not JSON,
    [requests.exceptions.JSONDecodeError], which is a
    [RequestException]; any other exception of the decoder as it is. *)
Definition json (r : response) : res pyval :=
  match body r with
  | Json v => inr v
  | NotJson d => inl (Exn JSONDecodeError (decode_error_str d))
  | DecoderRaises e => inl e
  end.

End Requests.
Export Requests.

(* ===================================================================== *)
(** ** Data frames                                                        *)
(* ===================================================================== *)

Module Pandas.

(** A column label: a string, or another object (a number or a date in
    the header row of a workbook), known by the name of its type and by
    its text. *)
Inductive label : Type :=
| LStr (s : string)
| LOther (cls text : string).

(** [str(label)] *)
Definition label_str (l : label) : string :=
  match l with
  | LStr s => s
  | LOther _ text => text
  end.

(** [label.lower()]: only a string has the method. *)
Definition label_lower (l : label) : res string :=
  match l with
  | LStr s => inr (lower s)
  | LOther cls _ =>
      inl (Exn AttributeError
             ("'" +:+ cls +:+ "' object has no attribute 'lower'"))
  end.

(** [a == b] on labels *)
Definition label_eqb (a b : label) : bool :=
  match a, b with
  | LStr s, LStr t => String.eqb s t
  | LOther c s, LOther d t => String.eqb c d && String.eqb s t
  | _, _ => false
  end.

(** A parsed table: the labelled columns, left to right, each with its
    cells in row order.  The readers rename a repeated header ([URL],
    [URL.1]), so a label finds one column.  The table of an empty sheet
    has no column. *)
Definition DataFrame : Type := list (label * list pyval).

(** [df.columns] *)
Definition columns (df : DataFrame) : list label := map fst df.

(** [df.columns[0]] *)
Definition columns_0 (df : DataFrame) : res label :=
  match columns df with
  | c :: _ => inr c
  | [] => inl (Exn IndexError
                 "index 0 is out of bounds for axis 0 with size 0")
  end.

(** [df[name]] *)
Fixpoint getitem (df : DataFrame) (name : label) : res (list pyval) :=
  match df with
  | [] => inl (Exn KeyError (label_str name))
  | (c, cells) :: df' =>
      if label_eqb c name then inr cells else getitem df' name
  end.

(** [pd.isna] on one cell: [None] and [nan] are missing ([PNone] stands
    for [NaT] as well). *)
Definition isna (v : pyval) : bool :=
  match v with
  | PNone => true
  | PFloat S754_nan => true
  | _ => false
  end.

(** [Series.dropna()] *)
Definition dropna (cells : list pyval) : list pyval :=
  filter (λ v, isna v = false) cells.

(** [Series.tolist()] *)
Definition tolist (cells : list pyval) : list pyval := cells.

(** The number of rows of the table. *)
Definition nrows (df : DataFrame) : nat :=
  match df with
  | [] => 0
  | (_, cells) :: _ => length cells
  end.

End Pandas.
Export Pandas.

(* ===================================================================== *)
(** ** The script                                                         *)
(* ===================================================================== *)

Module App.

(** *** The records the script builds *)

(** An entry of [results] (lines 159-166). *)
Record result_row : Type := ResultRow {
  url : pyval;
  title : pyval;
  description : pyval;
  content_length : nat;
  markdown_length : nat;
  full_result : pyval
}.

(** An entry of [errors] (lines 154-157). *)
Record error_row : Type := ErrorRow {
  err_url : pyval;
  error : string
}.

(** A row of [summary_df] (lines 186-192). *)
Record summary_row : Type := SummaryRow {
  URL : pyval;
  Title : pyval;
  Description : pyval;
  Content_Length : nat;
  Markdown_Length : nat
}.

(** [all_results['summary']] (lines 263-268). *)
Record run_summary : Type := RunSummary {
  total_urls : nat;
  successful : nat;
  failed : nat;
  timestamp : string
}.

(** What a download button offers. *)
Inductive download : Type :=
| SummaryCsv (rows : list summary_row)
| ResultJson (i : nat) (payload : pyval)
| ErrorsCsv (rows : list error_row)
| AllResultsJson (summary : run_summary) (payloads : list pyval)
                 (errs : list error_row)
| SampleCsv.

(** The uploaded file: [uploaded_file.name] and its bytes. *)
Record UploadedFile : Type := Uploaded { name : string; content : string }.

(** *** Effects *)

(** What the script does to the outside, in the order it does it. *)
Inductive event : Type :=
| StError (msg : string)
| StWarning (msg : string)
| StInfo (msg : string)
| StSuccess (succeeded total : nat)
| FileSummary (found : nat) (preview : list pyval)
| Progress (done total : nat)
| StatusText (done total : nat) (shown : pyval)
| HttpPost (r : request)
| Sleep (secs : Qc)
| ClearProgress
| SummaryTable (rows : list summary_row)
| ResultPanel (r : result_row)
| TextArea (value : pyval)
| ErrorTable (rows : list error_row)
| DownloadButton (d : download)
| Instructions.

(** A computation of the script: the effects performed, then the value
    returned or the exception raised. *)
Definition M (A : Type) : Type := list event * res A.

Definition ret {A} (a : A) : M A := ([], inr a).

Definition raise {A} (e : exn) : M A := ([], inl e).

Definition bind {A B} (m : M A) (k : A → M B) : M B :=
  match m with
  | (l, inr a) => let '(l', r) := k a in ((l ++ l')%list, r)
  | (l, inl e) => (l, inl e)
  end.

Definition emit (e : event) : M unit := ([e], inr tt).

(** A pure evaluation inside a computation. *)
Definition lift {A} (r : res A) : M A := ([], r).

(** [try: body except <catches>: handler] *)
Definition try_except {A} (body : M A) (catches : exn → bool)
    (handler : exn → M A) : M A :=
  match body with
  | (l, inl e) =>
      if catches e then let '(l', r) := handler e in ((l ++ l')%list, r)
      else (l, inl e)
  | done => done
  end.

Declare Scope py_scope.
Delimit Scope py_scope with py.
Notation "x <- m ;; k" := (bind m (λ x, k))
  (at level 100, m at next level, right associativity) : py_scope.
Notation "m ;; k" := (bind m (λ _, k))
  (at level 100, right associativity) : py_scope.
Local Open Scope py_scope.

(** The effects a computation performed. *)
Definition effects {A} (m : M A) : list event := m.1.

(** The value it returned, if it did not raise. *)
Definition returned {A} (m : M A) : option A :=
  match m.2 with inr a => Some a | inl _ => None end.

(** [time.sleep(secs)]: a negative argument is a [ValueError]. *)
Definition sleep (secs : Qc) : M unit :=
  if decide (secs < 0)%Qc
  then raise (Exn ValueError "sleep length must be non-negative")
  else emit (Sleep secs).

(** *** [scrape_url] (lines 45-65) *)

(** Lines 48-58: the request [scrape_url] sends. *)
Definition scrape_request (url : pyval) (api_key : string)
    (include_markdown : bool) : request :=
  let api_url := "https://scrape.serper.dev" in
  let payload :=
    PDict (<["url" := url]>
             (<["includeMarkdown" := PBool include_markdown]> ∅)) in
  let headers :=
    [("X-API-KEY", api_key); ("Content-Type", "application/json")] in
  Request "POST" api_url headers payload.

(** [transport] is [requests.request] as the network answers this call:
    a response, or the exception the library raises.  The payload is
    written by [json.dumps] before the [try]. *)
Definition scrape_url (transport : request → res response)
    (url : pyval) (api_key : string) (include_markdown : bool)
    : M (pyval * option string) :=
  let req := scrape_request url api_key include_markdown in
  lift (json_dumps (req_data req));;
  try_except
    (emit (HttpPost req);;
     response <- lift (transport req);;
     lift (raise_for_status response);;
     decoded <- lift (json response);;
     ret (decoded, None))
    is_RequestException
    (λ e, ret (PNone, Some (str_exn e))).

(** *** [read_urls_from_file] (lines 68-101) *)

Section Extractor.

(** [pd.read_csv] and [pd.read_excel] on the uploaded file: the parsed
    table, or the exception the reader raises. *)
Variables read_csv read_excel : UploadedFile → res DataFrame.

(** The extension test of lines 73-74. *)
Definition file_extension (file_name : string) : string :=
  lower (last_item (split "." file_name)).

(** [[col for col in cols if 'url' in col.lower()]]: the comprehension
    raises at the first label that is not a string. *)
Fixpoint url_labels (cols : list label) : res (list label) :=
  match cols with
  | [] => inr []
  | col :: rest =>
      match label_lower col with
      | inl e => inl e
      | inr low =>
          match url_labels rest with
          | inl e => inl e
          | inr found =>
              inr (if contains "url" low then col :: found else found)
          end
      end
  end.

(** Line 86. *)
Definition url_columns (df : DataFrame) : res (list label) :=
  url_labels (columns df).

(** Lines 85-97: the column choice and the extraction, after parsing. *)
Definition extract_urls (df : DataFrame) : M (list pyval) :=
  found <- lift (url_columns df);;
  url_column <-
    match found with
    | c :: _ => ret c
    | [] =>
        c <- lift (columns_0 df);;
        emit (StWarning ("No 'URL' column found. Using '" +:+ label_str c
                         +:+ "' column instead."));;
        ret c
    end;;
  series <- lift (getitem df url_column);;
  ret (tolist (dropna series)).

(** The function returns the list, or [None] after [st.error]. *)
Definition read_urls_from_file (uploaded_file : UploadedFile)
    : M (option (list pyval)) :=
  try_except
    (let file_name := name uploaded_file in
     let file_extension := file_extension file_name in
     if String.eqb file_extension "csv" then
       df <- lift (read_csv uploaded_file);;
       urls <- extract_urls df;;
       ret (Some urls)
     else if str_in file_extension ["xlsx"; "xls"] then
       df <- lift (read_excel uploaded_file);;
       urls <- extract_urls df;;
       ret (Some urls)
     else
       emit (StError
         "Unsupported file format. Please upload a CSV or Excel file.");;
       ret None)
    is_Exception
    (λ e, emit (StError ("Error reading file: " +:+ str_exn e));;
          ret None).

End Extractor.

(** *** The scrape loop (lines 140-170) *)

Definition res_bind {A B} (r : res A) (k : A → res B) : res B :=
  match r with
  | inr a => k a
  | inl e => inl e
  end.

Declare Scope res_scope.
Delimit Scope res_scope with res.
Notation "x <- r ;; k" := (res_bind r (λ x, k))
  (at level 100, r at next level, right associativity) : res_scope.

(** [len(result.get(key, '')) if result.get(key) else 0]
    (lines 163 and 164) *)
Definition field_length (result : pyval) (key : string) : res nat :=
  (guard <- py_get result key PNone;;
   if truthy guard then
     value <- py_get result key (PStr "");;
     py_len value
   else inr 0)%res.

(** The dictionary appended to [results] (lines 159-166). *)
Definition make_result (url result : pyval) : res result_row :=
  (title <- py_get result "title" (PStr "N/A");;
   description <- py_get result "description" (PStr "N/A");;
   content_length <- field_length result "text";;
   markdown_length <- field_length result "markdown";;
   inr (ResultRow url title description content_length markdown_length
          result))%res.

(** [if error:] on the second component [scrape_url] returns. *)
Definition error_set (error : option string) : bool :=
  match error with
  | Some msg => truthy (PStr msg)
  | None => false
  end.

Section Orchestrator.

(** [network i] is how the outside answers the request made for the URL at
    index [i]. *)
Variable network : nat → request → res response.
Variable api_key : string.
Variable include_markdown : bool.
Variable rate_limit : Qc.

(** The accumulators [results] and [errors]. *)
Definition outcome : Type := list result_row * list error_row.

(** One iteration of the [for] loop, for [urls[i] = url] and
    [len(urls) = n]. *)
Definition scrape_one (n i : nat) (url : pyval) (acc : outcome)
    : M outcome :=
  let '(results, errors) := acc in
  emit (Progress (i + 1) n);;
  shown <- lift (py_slice_to 50 url);;
  emit (StatusText (i + 1) n shown);;
  scraped <- scrape_url (network i) url api_key include_markdown;;
  let '(result, error) := scraped in
  acc' <-
    (if error_set error then
       ret (results,
            (errors ++ [ErrorRow url (default "" error)])%list)
     else
       row <- lift (make_result url result);;
       ret ((results ++ [row])%list, errors));;
  (if (i <? n - 1)%nat then sleep rate_limit else ret tt);;
  ret acc'.

(** [for i, url in enumerate(urls)], from index [i] on. *)
Fixpoint scrape_from (n i : nat) (urls : list pyval) (acc : outcome)
    : M outcome :=
  match urls with
  | [] => ret acc
  | url :: rest =>
      acc' <- scrape_one n i url acc;;
      scrape_from n (S i) rest acc'
  end.

(** Lines 140-170: both lists start empty. *)
Definition scrape_all (urls : list pyval) : M outcome :=
  scrape_from (length urls) 0 urls ([], []).

(** *** The result tabs and the downloads (lines 172-279) *)

(** [datetime.now().isoformat()] *)
Variable now : string.

(** [v[:50] + '...' if len(v) > 50 else v] (lines 188 and 189) *)
Definition truncate_50 (v : pyval) : res pyval :=
  (n <- py_len v;;
   if (50 <? n)%nat then
     head <- py_slice_to 50 v;;
     py_add_str head "..."
   else inr v)%res.

Definition summary_of (r : result_row) : res summary_row :=
  (t <- truncate_50 (title r);;
   d <- truncate_50 (description r);;
   inr (SummaryRow (url r) t d (content_length r) (markdown_length r)))%res.

(** A list comprehension whose element expression may raise. *)
Fixpoint res_map {A B} (f : A → res B) (l : list A) : res (list B) :=
  match l with
  | [] => inr []
  | a :: l' =>
      (b <- f a;;
       bs <- res_map f l';;
       inr (b :: bs))%res
  end.

(** [if results:] and [if errors:] *)
Definition nonempty {A} (l : list A) : bool :=
  match l with [] => false | _ => true end.

(** Tab 1 (lines 182-205). *)
Definition summary_tab (results : list result_row) : M unit :=
  if nonempty results then
    rows <- lift (res_map summary_of results);;
    emit (SummaryTable rows);;
    emit (DownloadButton (SummaryCsv rows))
  else ret tt.

(** [st.text_area("First 1000 characters", value=..., height=200,
    disabled=True)]: a widget made without a key is known by its label
    and arguments, and a second text area with the same value in the
    same run is refused.  [seen] holds the values of the text areas made
    so far. *)
Definition text_area (value : pyval) (seen : list string)
    : M (list string) :=
  match value with
  | PStr t =>
      if str_in t seen
      then raise (Exn DuplicateWidgetID
                    "There are multiple identical st.text_area widgets")
      else (emit (TextArea value);; ret (t :: seen))
  | _ => emit (TextArea value);; ret seen
  end.

(** [st.text_area(value=full_result[key][:1000] + "...")] *)
Definition preview (full : pyval) (key : string) (seen : list string)
    : M (list string) :=
  value <- lift (v <- py_item full key;;
                 head <- py_slice_to 1000 v;;
                 py_add_str head "...")%res;;
  text_area value seen.

(** One expander of tab 2 (lines 210-242). *)
Definition detail_panel (i : nat) (result : result_row) (seen : list string)
    : M (list string) :=
  lift (py_slice_to 100 (url result));;
  emit (ResultPanel result);;
  text <- lift (py_get (full_result result) "text" PNone);;
  seen <- (if truthy text then preview (full_result result) "text" seen
           else ret seen);;
  seen <- (if include_markdown then
             markdown <- lift (py_get (full_result result) "markdown" PNone);;
             if truthy markdown
             then preview (full_result result) "markdown" seen
             else ret seen
           else ret seen);;
  emit (DownloadButton (ResultJson (i + 1) (full_result result)));;
  ret seen.

Fixpoint detail_panels (i : nat) (results : list result_row)
    (seen : list string) : M (list string) :=
  match results with
  | [] => ret seen
  | r :: rest =>
      seen <- detail_panel i r seen;;
      detail_panels (S i) rest seen
  end.

(** Tab 2 (lines 207-242). *)
Definition details_tab (results : list result_row) : M unit :=
  if nonempty results then detail_panels 0 results [];; ret tt else ret tt.

(** Tab 3 (lines 244-258). *)
Definition errors_tab (errors : list error_row) : M unit :=
  if nonempty errors then
    emit (ErrorTable errors);;
    emit (DownloadButton (ErrorsCsv errors))
  else emit (StInfo "No errors occurred during scraping!").

(** [all_results] (lines 262-271). *)
Definition all_results (urls : list pyval) (results : list result_row)
    (errors : list error_row) : download :=
  AllResultsJson
    {| total_urls := length urls;
       successful := length results;
       failed := length errors;
       timestamp := now |}
    (map full_result results)
    errors.

(** Lines 172-279: everything shown once the loop is over. *)
Definition show_results (urls : list pyval) (acc : outcome) : M unit :=
  let '(results, errors) := acc in
  emit ClearProgress;;
  emit (StSuccess (length results) (length urls));;
  summary_tab results;;
  details_tab results;;
  errors_tab errors;;
  if nonempty results
  then emit (DownloadButton (all_results urls results errors))
  else ret tt.

(** *** The main flow (lines 114-283) *)

Variables read_csv read_excel : UploadedFile → res DataFrame.

(** [uploaded_file] is what the upload widget holds and [button] what
    [st.button] returns on this pass over the script. *)
Definition main (uploaded_file : option UploadedFile) (button : bool)
    : M unit :=
  match uploaded_file with
  | Some file =>
      urls <- read_urls_from_file read_csv read_excel file;;
      match urls with
      | Some ((_ :: _) as urls) =>
          emit (FileSummary (length urls) (take 10 urls));;
          if button then
            if negb (truthy (PStr api_key)) then
              emit (StError
                "Please enter a Serper API key in the sidebar to continue")
            else
              acc <- scrape_all urls;;
              show_results urls acc
          else ret tt
      | _ => ret tt
      end
  | None =>
      emit Instructions;;
      emit (DownloadButton SampleCsv)
  end.

End Orchestrator.

End App.
Export App.

Local Open Scope py_scope.
Local Open Scope list_scope.

(* ===================================================================== *)
(** ** Vocabulary of the properties                                       *)
(* ===================================================================== *)

(** *** Reading a log *)

(** [enumerate(l, start=i)] *)
Fixpoint enumerate_from {A} (i : nat) (l : list A) : list (nat * A) :=
  match l with
  | [] => []
  | a :: l' => (i, a) :: enumerate_from (S i) l'
  end.

(** The requests sent, in the order they were sent. *)
Definition posts (log : list event) : list request :=
  omap (λ e, match e with HttpPost r => Some r | _ => None end) log.

(** The arguments of the calls of [time.sleep], in order. *)
Definition sleeps (log : list event) : list Qc :=
  omap (λ e, match e with Sleep d => Some d | _ => None end) log.

(** The requests and the pauses together, in order. *)
Definition scheduled (e : event) : bool :=
  match e with HttpPost _ | Sleep _ => true | _ => false end.

Definition schedule (log : list event) : list event :=
  filter (λ e, scheduled e = true) log.

(** A request for each URL with a pause after each but the last. *)
Fixpoint throttled (delay : Qc) (requests : list request) : list event :=
  match requests with
  | [] => []
  | r :: rest =>
      match rest with
      | [] => [HttpPost r]
      | _ :: _ => HttpPost r :: Sleep delay :: throttled delay rest
      end
  end.

(** The time a log takes when the effect [e] takes [cost e]. *)
Definition elapsed (cost : event → Qc) (log : list event) : Qc :=
  foldr (λ e t, cost e + t)%Qc 0%Qc log.

(** Nothing takes negative time and a pause takes what was asked for. *)
Definition pause_cost (e : event) : Qc :=
  match e with
  | Sleep d => if decide (0 ≤ d)%Qc then d else 0%Qc
  | _ => 0%Qc
  end.

(** *** One iteration of the loop *)

(** What the client returns, by the answer of the network. *)
Definition client_value (answer : res response)
    : res (pyval * option string) :=
  match answer with
  | inl e =>
      if is_RequestException e then inr (PNone, Some (str_exn e)) else inl e
  | inr r =>
      match raise_for_status r with
      | inl e => inr (PNone, Some (str_exn e))
      | inr _ =>
          match json r with
          | inl e =>
              if is_RequestException e then inr (PNone, Some (str_exn e))
              else inl e
          | inr v => inr (v, None)
          end
      end
  end.

(** What the client returns or raises, for a transport. *)
Definition client_result (transport : request → res response)
    (url : pyval) (api_key : string) (include_markdown : bool)
    : res (pyval * option string) :=
  match json_dumps
          (req_data (scrape_request url api_key include_markdown)) with
  | inl e => inl e
  | inr _ =>
      client_value (transport (scrape_request url api_key include_markdown))
  end.

(** What the client sends: the request, when the payload could be
    written. *)
Definition sent (url : pyval) (api_key : string) (include_markdown : bool)
    : list event :=
  match json_dumps
          (req_data (scrape_request url api_key include_markdown)) with
  | inr _ => [HttpPost (scrape_request url api_key include_markdown)]
  | inl _ => []
  end.

Arguments client_result : simpl never.
Arguments sent : simpl never.

(** [len(v)] is defined, or [v] is falsy and [len] is not reached. *)
Definition sized_or_falsy (v : pyval) : bool :=
  negb (truthy v) || match py_len v with inr _ => true | inl _ => false end.

(** A payload lines 159-166 accept: a dictionary whose [text] and
    [markdown], where present and truthy, have a length. *)
Definition payload_accepted (result : pyval) : bool :=
  match result with
  | PDict d =>
      sized_or_falsy (default PNone (d !! "text"))
      && sized_or_falsy (default PNone (d !! "markdown"))
  | _ => false
  end.

Section Iteration.

Variable network : nat → request → res response.
Variable api_key : string.
Variable include_markdown : bool.
Variable rate_limit : Qc.

(** The pause that follows the URL at index [i] of [n]. *)
Definition pause (n i : nat) : list event :=
  if (i <? n - 1)%nat then [Sleep rate_limit] else [].

(** The effects of one iteration that runs to its end. *)
Definition iteration_log (n i : nat) (url shown : pyval) : list event :=
  [Progress (i + 1) n; StatusText (i + 1) n shown; HttpPost (scrape_request url api_key include_markdown)]
  ++ pause n i.

(** Whether the client reports an error the loop acts on. *)
Definition failed_at (i : nat) (url : pyval) : bool :=
  match returned (scrape_url (network i) url api_key include_markdown) with
  | Some (_, error) => error_set error
  | None => false
  end.

(** The URL can be sliced for the status line and written by
    [json.dumps], and the answer of the network is one the iteration
    handles: a [RequestException] with a message, an HTTP error status, a
    body that is not JSON, or an accepted payload. *)
Definition handled (i : nat) (url : pyval) : bool :=
  match py_slice_to 50 url with inr _ => true | inl _ => false end
  && match json_dumps
             (req_data (scrape_request url api_key include_markdown)) with
     | inr _ => true
     | inl _ => false
     end
  && match network i (scrape_request url api_key include_markdown) with
     | inl e => is_RequestException e && truthy (PStr (str_exn e))
     | inr r =>
         match raise_for_status r, body r with
         | inl _, _ => true
         | inr _, NotJson _ => true
         | inr _, DecoderRaises e =>
             is_RequestException e && truthy (PStr (str_exn e))
         | inr _, Json v => payload_accepted v
         end
     end.

End Iteration.

(** *** The entry appended for a scraped URL *)

(** [field or default] on an optional field of the payload, as the
    specification writes the derived fields: the default stands in for a
    field that is absent and for one that is falsy. *)
Definition field_or (field : option pyval) (dflt : pyval) : pyval :=
  match field with
  | Some v => if truthy v then v else dflt
  | None => dflt
  end.

(** The entry the specification describes for the payload [d]:
    [title or "N/A"], [description or "N/A"], [length(text or "")] and
    [length(markdown or "")]. *)
Definition described_result (u : pyval) (d : gmap string pyval)
    : res result_row :=
  (text_length <- py_len (field_or (d !! "text") (PStr ""));;
   markdown_length <- py_len (field_or (d !! "markdown") (PStr ""));;
   inr (ResultRow u
          (field_or (d !! "title") (PStr "N/A"))
          (field_or (d !! "description") (PStr "N/A"))
          text_length markdown_length (PDict d)))%res.

(** A field of the payload that is a string when it is present: the
    string, and ["N/A"] for an absent key. *)
Definition string_or_na (field : option pyval) : pyval :=
  match field with
  | Some (PStr s) => PStr s
  | _ => PStr "N/A"
  end.

(** The entry of a payload in which [title] and [description] are
    strings where they are present: the default stands in for an absent
    key only, and an empty title or description is kept. *)
Definition appended_result (u : pyval) (d : gmap string pyval)
    : res result_row :=
  (text_length <- py_len (field_or (d !! "text") (PStr ""));;
   markdown_length <- py_len (field_or (d !! "markdown") (PStr ""));;
   inr (ResultRow u
          (string_or_na (d !! "title"))
          (string_or_na (d !! "description"))
          text_length markdown_length (PDict d)))%res.

(** A field of the payload that is absent or holds a string. *)
Definition absent_or_string (field : option pyval) : Prop :=
  match field with
  | None | Some (PStr _) => True
  | Some _ => False
  end.

(** *** Failures of the HTTP interaction *)





(** *** Parsed tables *)

Section Parsing.

Variables read_csv read_excel : UploadedFile → res DataFrame.

(** The file has a supported extension and its reader returns [df]. *)
Definition parsed_as (file : UploadedFile) (df : DataFrame) : Prop :=
  (file_extension (name file) = "csv" ∧ read_csv file = inr df)
  ∨ (str_in (file_extension (name file)) ["xlsx"; "xls"] = true
     ∧ read_excel file = inr df).

End Parsing.

(** What the handler of line 99 makes of the extraction. *)
Definition guarded (m : M (list pyval)) : M (option (list pyval)) :=
  match m with
  | (log, inr urls) => (log, inr (Some urls))
  | (log, inl e) =>
      (log ++ [StError ("Error reading file: " +:+ str_exn e)], inr None)
  end.

(** The label is a string. *)
Definition string_label (l : label) : Prop :=
  match l with
  | LStr _ => True
  | LOther _ _ => False
  end.

(** The label is a string without "url" in it, in any letter case. *)
Definition plain_label (l : label) : Prop :=
  match l with
  | LStr s => contains "url" (lower s) = false
  | LOther _ _ => False
  end.

(** Every column is labelled by a string. *)
Definition named (df : DataFrame) : Prop :=
  Forall (λ p, string_label p.1) df.

(** Every column is labelled by a string, and no label has "url" in
    it. *)
Definition unnamed (df : DataFrame) : Prop :=
  Forall (λ p, plain_label p.1) df.

(** The column the extractor reads, by the rule of C3, in a table whose
    labels are all strings. *)
Definition selects (df : DataFrame) (c : string) (cells : list pyval)
    : Prop :=
  (∃ before after, df = before ++ (LStr c, cells) :: after
                   ∧ unnamed before ∧ contains "url" (lower c) = true
                   ∧ named after)
  ∨ (∃ rest, df = (LStr c, cells) :: rest ∧ unnamed df).

(** The strings [pd.read_csv] and [pd.read_excel] take for a missing
    value: a cell holding one of them is [nan] in the parsed table. *)
Definition na_values : list string :=
  [""; "#N/A"; "#N/A N/A"; "#NA"; "-1.#IND"; "-1.#QNAN"; "-NaN"; "-nan";
   "1.#IND"; "1.#QNAN"; "<NA>"; "N/A"; "NA"; "NULL"; "NaN"; "None"; "n/a";
   "nan"; "null"].

(** No cell of the table is a string the reader takes for missing. *)
Definition na_converted (df : DataFrame) : Prop :=
  Forall (λ p, Forall (λ v, ∀ s, v = PStr s → str_in s na_values = false)
                      p.2) df.

(** *** What a pass collects *)

Section Collected.

Variable network : nat → request → res response.
Variable api_key : string.
Variable include_markdown : bool.

(** The entry of [results] the URL [p.2] at index [p.1] gives, if any. *)
Definition scraped (p : nat * pyval) : option result_row :=
  match returned (scrape_url (network p.1) p.2 api_key include_markdown) with
  | Some (result, error) =>
      if error_set error then None
      else match make_result p.2 result with
           | inr row => Some row
           | inl _ => None
           end
  | None => None
  end.

(** The entry of [errors] it gives, if any. *)
Definition refused (p : nat * pyval) : option error_row :=
  match returned (scrape_url (network p.1) p.2 api_key include_markdown) with
  | Some (_, error) =>
      if error_set error then Some (ErrorRow p.2 (default "" error))
      else None
  | None => None
  end.

End Collected.

(** *** What is shown after a pass *)

(** The downloads offered, in the order of the page. *)
Definition downloads (log : list event) : list download :=
  omap (λ e, match e with DownloadButton d => Some d | _ => None end) log.

(** A title or description of the summary: cut after 50 characters, with
    an ellipsis, when it is longer. *)
Definition shortened (s : string) : string :=
  if (50 <? String.length s)%nat then substring 0 50 s +:+ "..." else s.

Definition shorten (v : pyval) : pyval :=
  match v with
  | PStr s => PStr (shortened s)
  | _ => v
  end.

Definition summary_row_of (r : result_row) : summary_row :=
  SummaryRow (url r) (shorten (title r)) (shorten (description r))
             (content_length r) (markdown_length r).


Definition is_str (v : pyval) : bool :=
  match v with PStr _ => true | _ => false end.

(** [len(v)] raises. *)
Definition unsized (v : pyval) : bool :=
  match py_len v with inl _ => true | inr _ => false end.

(** A field of the payload the detail tab can preview: falsy or absent,
    so that no preview is made, or a string. *)
Definition previewable (field : option pyval) : bool :=
  match field with
  | Some v => negb (truthy v) || is_str v
  | None => true
  end.

(** An entry every tab can show: its URL, title and description are
    strings and its payload is a dictionary whose [text], and [markdown]
    when markdown is asked for, can be previewed. *)
Definition displayable (include_markdown : bool) (r : result_row) : bool :=
  is_str (url r) && is_str (title r) && is_str (description r)
  && match full_result r with
     | PDict d =>
         previewable (d !! "text")
         && (negb include_markdown || previewable (d !! "markdown"))
     | _ => false
     end.

(** The text the detail tab previews for one field of the payload, if it
    previews it: the first 1000 characters and an ellipsis. *)
Definition preview_text (field : option pyval) : list string :=
  match field with
  | Some (PStr s) =>
      if truthy (PStr s) then [substring 0 1000 s +:+ "..."] else []
  | _ => []
  end.

(** The texts previewed for one entry, then for all, in the order of the
    page. *)
Definition panel_previews (include_markdown : bool) (r : result_row)
    : list string :=
  match full_result r with
  | PDict d =>
      preview_text (d !! "text")
      ++ (if include_markdown then preview_text (d !! "markdown") else [])
  | _ => []
  end.

Definition page_previews (include_markdown : bool)
    (results : list result_row) : list string :=
  concat (map (panel_previews include_markdown) results).

(** An effect that is neither a request nor a pause. *)
Definition offline (e : event) : Prop := scheduled e = false.

(** An effect that is not a download button. *)
Definition no_download (e : event) : Prop :=
  match e with DownloadButton _ => False | _ => True end.

(** *** File names *)

(** The extension a file name declares: the text after its last dot, or
    the whole name when it has no dot. *)
Definition declares (file_name ext : string) : Prop :=
  contains "." ext = false
  ∧ (file_name = ext ∨ ∃ stem, file_name = stem +:+ "." +:+ ext).

(* ===================================================================== *)
(** ** Inputs of the scenarios                                            *)
(* ===================================================================== *)

Module Scenario.

Definition ok_response (payload : pyval) : res response :=
  inr (Response 200 "OK" "https://scrape.serper.dev/" (Json payload)).

Definition server_error : res response :=
  inr (Response 500 "Internal Server Error" "https://scrape.serper.dev/"
         (NotJson (DecodeError "Expecting value" 1 1 0))).

Definition example_payload : pyval :=
  PDict (<["title" := PStr "Example"]> (<["text" := PStr "hello"]> ∅)).

Definition second_payload : pyval :=
  PDict (<["title" := PStr "Second"]> (<["text" := PStr "world"]> ∅)).

(** Three URLs: the first two are scraped, the third gets a 500. *)
Definition three_urls : list pyval :=
  [PStr "https://a.com"; PStr "https://b.com"; PStr "https://c.com"].

Definition two_then_fail (i : nat) (_ : request) : res response :=
  if (i <? 1)%nat then ok_response example_payload
  else if (i <? 2)%nat then ok_response second_payload
  else server_error.

End Scenario.

Definition not_a_csv : UploadedFile → res DataFrame :=
  λ _, inl (Exn ParserError "Error tokenizing data").

Definition not_a_workbook : UploadedFile → res DataFrame :=
  λ _, inl (Exn ValueError "Excel file format cannot be determined").

(** A workbook whose sheet is empty: [pd.read_excel] returns a frame
    with no column. *)
Definition empty_sheet : UploadedFile → res DataFrame := λ _, inr [].

Definition a_com : pyval := PStr "https://a.com".
Definition b_com : pyval := PStr "https://b.com".

(** The URL column stands second, and its second cell is empty. *)
Definition pages : DataFrame :=
  [(LStr "Name", [PStr "A"; PStr "B"; PStr "C"]);
   (LStr "Page URL", [a_com; PFloat S754_nan; b_com])].

(** The header of the first column of a sheet is the number 2024, and
    the second column is the URL column. *)
Definition numbered_sheet : DataFrame :=
  [(LOther "int" "2024", [PInt 1; PInt 2]);
   (LStr "URL", [a_com; b_com])].

(** No column has "url" in its name. *)
Definition websites : DataFrame := [(LStr "Website", [a_com; b_com])].

(** The scenario of the specification: the column [URL] holds
    [https://a.com], an empty cell and [https://b.com]. *)
Definition url_sheet : DataFrame :=
  [(LStr "URL", [a_com; PFloat S754_nan; b_com])].

(* ===================================================================== *)
(** ** Basic facts                                                        *)
(* ===================================================================== *)

Section Basics.

Lemma append_nonempty (s t : string) (c : ascii) :
  s +:+ String c t ≠ "".
Proof. destruct s; discriminate. Qed.


Lemma truthy_str (s : string) : truthy (PStr s) = true ↔ s ≠ "".
Proof.
  simpl. destruct (String.eqb_spec s ""); simpl; split; intros; congruence.
Qed.




Lemma raise_for_status_class (r : response) (e : exn) :
  raise_for_status r = inl e → exn_cls e = HTTPError ∧ exn_msg e ≠ "".
Proof.
  unfold raise_for_status.
  match goal with
  | |- (if negb (String.eqb ?m "") then _ else _) = _ → _ =>
      destruct (String.eqb_spec m "") as [Heq|Hne]; simpl
  end; [discriminate|].
  intros [= <-]. simpl. auto.
Qed.

Lemma decode_error_str_nonempty (d : decode_error) :
  decode_error_str d ≠ "".
Proof. unfold decode_error_str. apply append_nonempty. Qed.

Lemma first_of_comm (a b y : option string) :
  a = None ∨ b = None → first_of a (first_of b y) = first_of b (first_of a y).
Proof. intros [->| ->]; [destruct b, y|destruct a, y]; reflexivity. Qed.

(** In the payload of a request only the URL can stop [json.dumps]. *)
Lemma unserialisable_payload (u : pyval) (api_key : string) (b : bool) :
  unserialisable (req_data (scrape_request u api_key b)) = unserialisable u.
Proof.
  unfold scrape_request. cbn [req_data unserialisable].
  assert (Hkeys : ∀ j z,
            (<["url" := u]> (<["includeMarkdown" := PBool b]> ∅)
               : gmap string pyval) !! j = Some z →
            (j = "url" ∧ z = u) ∨ z = PBool b).
  { intros j z H. apply lookup_insert_Some in H as [[<- <-]|[_ H]]; [auto|].
    apply lookup_insert_Some in H as [[_ <-]|[_ H]]; [auto|].
    rewrite lookup_empty in H. discriminate H. }
  rewrite map_fold_insert_L.
  - rewrite map_fold_insert_L.
    + rewrite map_fold_empty. cbn [unserialisable first_of].
      destruct (unserialisable u); reflexivity.
    + intros j1 j2 z1 z2 y Hne H1 H2.
      apply lookup_insert_Some in H1 as [[_ <-]|[_ H1]];
        [|rewrite lookup_empty in H1; discriminate].
      apply first_of_comm. left. reflexivity.
    + apply lookup_empty.
  - intros j1 j2 z1 z2 y Hne H1 H2. apply first_of_comm.
    apply Hkeys in H1 as [[-> ->]| ->]; [|left; reflexivity].
    apply Hkeys in H2 as [[-> ->]| ->]; [congruence|right; reflexivity].
  - rewrite lookup_insert_ne by discriminate. apply lookup_empty.
Qed.

(** [json.dumps] writes the payload of a URL that is a string. *)
Lemma json_dumps_string (s api_key : string) (b : bool) :
  json_dumps (req_data (scrape_request (PStr s) api_key b))
  = inr (req_data (scrape_request (PStr s) api_key b)).
Proof. unfold json_dumps. rewrite unserialisable_payload. reflexivity. Qed.

Lemma scrape_url_unfold transport url api_key include_markdown :
  scrape_url transport url api_key include_markdown =
  (sent url api_key include_markdown,
   client_result transport url api_key include_markdown).
Proof.
  unfold scrape_url, sent, client_result, client_value, try_except, bind,
    emit, lift, ret.
  destruct (json_dumps _) as [e0|p]; [reflexivity|]. cbn [app].
  destruct (transport _) as [e|r]; simpl.
  - destruct (is_RequestException e); reflexivity.
  - destruct (raise_for_status r) as [e|[]] eqn:Hs; simpl.
    + apply raise_for_status_class in Hs as [Hc _].
      unfold is_RequestException. rewrite Hc. reflexivity.
    + destruct (json r) as [e|v] eqn:Hj; simpl; [|reflexivity].
      destruct (is_RequestException e); reflexivity.
Qed.

Lemma client_result_sent transport url api_key include_markdown a :
  client_result transport url api_key include_markdown = inr a →
  sent url api_key include_markdown
  = [HttpPost (scrape_request url api_key include_markdown)]
  ∧ client_value (transport (scrape_request url api_key include_markdown))
    = inr a.
Proof.
  unfold client_result, sent.
  destruct (json_dumps _); [discriminate|]. auto.
Qed.

Lemma client_result_string transport s api_key include_markdown :
  client_result transport (PStr s) api_key include_markdown
  = client_value
      (transport (scrape_request (PStr s) api_key include_markdown))
  ∧ sent (PStr s) api_key include_markdown
    = [HttpPost (scrape_request (PStr s) api_key include_markdown)].
Proof.
  unfold client_result, sent. rewrite json_dumps_string. auto.
Qed.

End Basics.

(* ===================================================================== *)
(** ** The scrape loop, one iteration at a time                           *)
(* ===================================================================== *)

Section Loop.

Variable network : nat → request → res response.
Variable api_key : string.
Variable include_markdown : bool.
Variable rate_limit : Qc.

Abbreviation request_for url := (scrape_request url api_key include_markdown).
Abbreviation answer i url :=
  (client_result (network i) url api_key include_markdown).
Abbreviation scrape_one := (scrape_one network api_key include_markdown rate_limit).
Abbreviation scrape_from :=
  (scrape_from network api_key include_markdown rate_limit).
Abbreviation scrape_all := (scrape_all network api_key include_markdown rate_limit).

Lemma sleep_returns (l : list event) (u : unit) :
  sleep rate_limit = (l, inr u) → l = [Sleep rate_limit].
Proof.
  unfold sleep. destruct (decide (rate_limit < 0)%Qc); simpl.
  - discriminate.
  - intros [= <-]. reflexivity.
Qed.

Lemma sleep_nonneg : (0 ≤ rate_limit)%Qc →
  sleep rate_limit = ([Sleep rate_limit], inr tt).
Proof.
  intros H. unfold sleep. destruct (decide (rate_limit < 0)%Qc); simpl.
  - exfalso. eapply Qclt_not_le; eassumption.
  - reflexivity.
Qed.

(** An iteration that returns did exactly one of the two appends. *)
Lemma scrape_one_inv n i url rs es log acc' :
  scrape_one n i url (rs, es) = (log, inr acc') →
  ∃ shown, py_slice_to 50 url = inr shown ∧
    log = iteration_log api_key include_markdown rate_limit n i url shown ∧
    ((∃ result msg, answer i url = inr (result, Some msg) ∧ msg ≠ "" ∧
        acc' = (rs, es ++ [ErrorRow url msg])) ∨
     (∃ result error row, answer i url = inr (result, error) ∧
        error_set error = false ∧ make_result url result = inr row ∧
        acc' = (rs ++ [row], es))).
Proof.
  unfold App.scrape_one. rewrite scrape_url_unfold.
  destruct (answer i url) as [e|[result error]] eqn:Ha.
  { unfold bind, emit, lift, ret.
    destruct (py_slice_to 50 url); simpl; discriminate. }
  destruct (client_result_sent _ _ _ _ _ Ha) as [-> _].
  unfold iteration_log, pause, bind, emit, lift, ret. simpl.
  destruct (py_slice_to 50 url) as [e|shown]; simpl; [discriminate|].
  destruct (error_set error) eqn:He; simpl.
  - destruct error as [msg|]; [|discriminate]. simpl in He.
    destruct (i <? n - 1)%nat; simpl.
    + destruct (sleep rate_limit) as [l [e|[]]] eqn:Hs; simpl;
        [discriminate|].
      apply sleep_returns in Hs as ->. intros [= <- <-].
      exists shown. split; [reflexivity|]. split; [reflexivity|].
      left. exists result, msg. repeat split; try reflexivity.
      apply truthy_str. exact He.
    + intros [= <- <-]. exists shown. split; [reflexivity|].
      split; [reflexivity|]. left. exists result, msg.
      repeat split; try reflexivity. apply truthy_str. exact He.
  - destruct (make_result url result) as [e|row] eqn:Hr; simpl;
      [discriminate|].
    destruct (i <? n - 1)%nat; simpl.
    + destruct (sleep rate_limit) as [l [e|[]]] eqn:Hs; simpl;
        [discriminate|].
      apply sleep_returns in Hs as ->. intros [= <- <-].
      exists shown. split; [reflexivity|]. split; [reflexivity|].
      right. exists result, error, row. rewrite He. auto.
    + intros [= <- <-]. exists shown. split; [reflexivity|].
      split; [reflexivity|]. right. exists result, error, row.
      rewrite He. auto.
Qed.

Lemma scrape_from_unfold n i url rest acc :
  scrape_from n i (url :: rest) acc =
  bind (scrape_one n i url acc) (scrape_from n (S i) rest).
Proof. reflexivity. Qed.

(** The loop unrolled once. *)
Lemma scrape_from_cons n i url rest acc log acc' :
  scrape_from n i (url :: rest) acc = (log, inr acc') →
  ∃ log1 acc1 log2,
    scrape_one n i url acc = (log1, inr acc1) ∧
    scrape_from n (S i) rest acc1 = (log2, inr acc') ∧
    log = log1 ++ log2.
Proof.
  simpl. unfold bind.
  destruct (scrape_one n i url acc) as [log1 [e|acc1]]; [discriminate|].
  destruct (scrape_from n (S i) rest acc1) as [log2 r] eqn:H2.
  intros [= <- ->]. exists log1, acc1, log2. auto.
Qed.

(** *** When an iteration runs to its end *)

Lemma field_length_accepted (d : gmap string pyval) (key : string) :
  sized_or_falsy (default PNone (d !! key)) = true →
  ∃ n, field_length (PDict d) key = inr n.
Proof.
  unfold sized_or_falsy, field_length. simpl.
  destruct (d !! key) as [v|]; simpl; [|eauto].
  destruct (truthy v); simpl; [|eauto].
  destruct (py_len v); [discriminate|eauto].
Qed.

Lemma make_result_accepted (url result : pyval) :
  payload_accepted result = true → ∃ row, make_result url result = inr row.
Proof.
  destruct result; try discriminate. simpl.
  intros [Ht Hm]%andb_true_iff.
  apply field_length_accepted in Ht as [nt Ht].
  apply field_length_accepted in Hm as [nm Hm].
  unfold make_result. simpl. rewrite Ht. simpl. rewrite Hm. simpl. eauto.
Qed.

Lemma scrape_one_handled n i url rs es :
  (0 ≤ rate_limit)%Qc → handled network api_key include_markdown i url = true →
  ∃ shown acc', scrape_one n i url (rs, es) =
                (iteration_log api_key include_markdown rate_limit n i url shown, inr acc').
Proof.
  intros Hrate [[Hu Hd]%andb_true_iff Ha]%andb_true_iff.
  destruct (py_slice_to 50 url) as [|shown] eqn:Hs; [discriminate Hu|].
  assert (Hsent : sent url api_key include_markdown
                  = [HttpPost (request_for url)]
                  ∧ answer i url
                    = client_value (network i (request_for url))).
  { unfold sent, client_result.
    destruct (json_dumps _); [discriminate Hd|]. auto. }
  destruct Hsent as [Hsent Hans].
  assert (Hv : ∃ acc', (∃ result msg, answer i url = inr (result, Some msg)
                           ∧ msg ≠ "" ∧ acc' = (rs, es ++ [ErrorRow url msg]))
                ∨ (∃ result row, answer i url = inr (result, None)
                           ∧ make_result url result = inr row
                           ∧ acc' = (rs ++ [row], es))).
  { rewrite Hans. unfold client_value.
    destruct (network i (request_for url)) as [e|r].
    - apply andb_true_iff in Ha as [-> Hm]. apply truthy_str in Hm.
      eexists. left. eauto.
    - destruct (raise_for_status r) as [e|[]] eqn:Hr.
      + apply raise_for_status_class in Hr as [_ Hm]. eexists. left. eauto.
      + unfold json. destruct (body r) as [v|d|e].
        * apply (make_result_accepted url) in Ha as [row Hrow].
          eexists. right. eauto.
        * eexists. left. do 2 eexists. split; [reflexivity|].
          split; [|reflexivity]. apply decode_error_str_nonempty.
        * apply andb_true_iff in Ha as [-> Hm]. apply truthy_str in Hm.
          eexists. left. eauto. }
  destruct Hv as [acc' Hv]. exists shown, acc'.
  unfold App.scrape_one. rewrite scrape_url_unfold, Hsent.
  unfold iteration_log, pause, bind, emit, lift, ret. simpl. rewrite Hs. simpl.
  destruct Hv as [(result & msg & -> & Hm & ->)|(result & row & -> & Hr & ->)];
    simpl.
  - apply truthy_str in Hm. simpl in Hm. rewrite Hm. simpl.
    destruct (i <? n - 1)%nat; simpl; [|reflexivity].
    rewrite (sleep_nonneg Hrate). reflexivity.
  - rewrite Hr. simpl.
    destruct (i <? n - 1)%nat; simpl; [|reflexivity].
    rewrite (sleep_nonneg Hrate). reflexivity.
Qed.

(** The loop runs to its end when every iteration is handled. *)
Lemma scrape_from_handled n i urls acc :
  (0 ≤ rate_limit)%Qc →
  forallb (λ p, handled network api_key include_markdown p.1 p.2) (enumerate_from i urls) = true →
  ∃ log acc', scrape_from n i urls acc = (log, inr acc').
Proof.
  intros Hrate. revert i acc.
  induction urls as [|url rest IH]; intros i [rs es] Hall.
  - eexists _, _. reflexivity.
  - simpl in Hall. apply andb_true_iff in Hall as [Hh Hall].
    destruct (scrape_one_handled n i url rs es Hrate Hh)
      as (shown & acc1 & H1).
    destruct (IH (S i) acc1 Hall) as (log2 & acc' & H2).
    rewrite scrape_from_unfold, H1. unfold bind. rewrite H2.
    eexists _, _. reflexivity.
Qed.

(** *** What a finished loop has done *)

Lemma scrape_from_count n i urls rs es log rs' es' :
  scrape_from n i urls (rs, es) = (log, inr (rs', es')) →
  length rs' + length es' = length rs + length es + length urls.
Proof.
  revert i rs es log.
  induction urls as [|url rest IH]; intros i rs es log H.
  - simpl in H. injection H as <- <- <-. simpl. lia.
  - apply scrape_from_cons in H as (log1 & [rs1 es1] & log2 & H1 & H2 & ->).
    apply IH in H2. rewrite H2.
    apply scrape_one_inv in H1 as (shown & _ & _ & Hcase).
    destruct Hcase as [(? & ? & _ & _ & [= -> ->])
                      |(? & ? & ? & _ & _ & _ & [= -> ->])];
      rewrite length_app; simpl; lia.
Qed.

Lemma make_result_fields (u result : pyval) (row : result_row) :
  make_result u result = inr row →
  url row = u ∧ full_result row = result.
Proof.
  unfold make_result, res_bind.
  destruct (py_get result "title" _); [discriminate|].
  destruct (py_get result "description" _); [discriminate|].
  destruct (field_length result "text"); [discriminate|].
  destruct (field_length result "markdown"); [discriminate|].
  intros [= <-]. auto.
Qed.

(** The URLs of both lists, in the order of the input. *)
Lemma scrape_from_order n i urls rs es log rs' es' :
  scrape_from n i urls (rs, es) = (log, inr (rs', es')) →
  map url rs' =
    map url rs
    ++ map snd (filter (λ p, failed_at network api_key include_markdown p.1 p.2 = false)
                       (enumerate_from i urls))
  ∧ map err_url es' =
    map err_url es
    ++ map snd (filter (λ p, failed_at network api_key include_markdown p.1 p.2 = true)
                       (enumerate_from i urls)).
Proof.
  revert i rs es log.
  induction urls as [|u rest IH]; intros i rs es log H.
  - simpl in H. injection H as <- <- <-. simpl.
    rewrite !app_nil_r. auto.
  - apply scrape_from_cons in H as (log1 & [rs1 es1] & log2 & H1 & H2 & ->).
    apply IH in H2 as [Hr He]. rewrite Hr, He. clear Hr He.
    apply scrape_one_inv in H1 as (shown & _ & _ & Hcase).
    simpl enumerate_from.
    destruct Hcase as [(result & msg & Ha & Hm & [= -> ->])
                      |(result & error & row & Ha & Herr & Hrow & [= -> ->])].
    + assert (Hf : failed_at network api_key include_markdown i u = true).
      { unfold failed_at, returned. rewrite scrape_url_unfold. simpl.
        rewrite Ha. simpl. apply truthy_str in Hm.
        exact Hm. }
      rewrite filter_cons_False by (simpl; congruence).
      rewrite filter_cons_True by exact Hf.
      rewrite map_app. simpl. rewrite <- app_assoc. auto.
    + assert (Hf : failed_at network api_key include_markdown i u = false).
      { unfold failed_at, returned. rewrite scrape_url_unfold. simpl.
        rewrite Ha. exact Herr. }
      apply make_result_fields in Hrow as [Hu _].
      rewrite filter_cons_True by exact Hf.
      rewrite filter_cons_False by (simpl; congruence).
      rewrite map_app. simpl. rewrite Hu, <- app_assoc. auto.
Qed.

Lemma posts_app (l1 l2 : list event) : posts (l1 ++ l2) = posts l1 ++ posts l2.
Proof. apply omap_app. Qed.

Lemma sleeps_app (l1 l2 : list event) :
  sleeps (l1 ++ l2) = sleeps l1 ++ sleeps l2.
Proof. apply omap_app. Qed.

Lemma schedule_app (l1 l2 : list event) :
  schedule (l1 ++ l2) = schedule l1 ++ schedule l2.
Proof. apply filter_app. Qed.

Lemma schedule_iteration n i u shown :
  schedule (iteration_log api_key include_markdown rate_limit n i u shown) = HttpPost (request_for u) :: pause rate_limit n i.
Proof.
  unfold iteration_log, pause. destruct (i <? n - 1)%nat; reflexivity.
Qed.

(** One request per URL, in the order of the input. *)
Lemma scrape_from_posts n i urls acc log acc' :
  scrape_from n i urls acc = (log, inr acc') →
  posts log = map (λ u, request_for u) urls.
Proof.
  revert i acc log.
  induction urls as [|u rest IH]; intros i [rs es] log H.
  - simpl in H. injection H as <- <-. reflexivity.
  - apply scrape_from_cons in H as (log1 & [rs1 es1] & log2 & H1 & H2 & ->).
    apply IH in H2. rewrite posts_app, H2.
    apply scrape_one_inv in H1 as (shown & _ & -> & _).
    unfold iteration_log, pause. destruct (i <? n - 1)%nat; reflexivity.
Qed.

Lemma scrape_from_schedule n i urls acc log acc' :
  i + length urls = n →
  scrape_from n i urls acc = (log, inr acc') →
  schedule log = throttled rate_limit (map (λ u, request_for u) urls).
Proof.
  revert i acc log.
  induction urls as [|u rest IH]; intros i [rs es] log Hn H.
  - simpl in H. injection H as <- <-. reflexivity.
  - apply scrape_from_cons in H as (log1 & [rs1 es1] & log2 & H1 & H2 & ->).
    apply IH in H2; [|simpl in Hn; lia].
    rewrite schedule_app, H2.
    apply scrape_one_inv in H1 as (shown & _ & -> & _).
    rewrite schedule_iteration. unfold pause. simpl in Hn.
    destruct rest as [|u' rest'].
    + replace (i <? n - 1)%nat with false
        by (symmetry; apply Nat.ltb_ge; simpl in Hn; lia).
      reflexivity.
    + replace (i <? n - 1)%nat with true
        by (symmetry; apply Nat.ltb_lt; simpl in Hn; lia).
      reflexivity.
Qed.

Lemma sleeps_throttled (delay : Qc) (requests : list request) :
  sleeps (throttled delay requests) = replicate (length requests - 1) delay.
Proof.
  induction requests as [|r rest IH]; [reflexivity|].
  destruct rest as [|r' rest']; [reflexivity|].
  change (sleeps (throttled delay (r :: r' :: rest')))
    with (delay :: sleeps (throttled delay (r' :: rest'))).
  rewrite IH. simpl. rewrite Nat.sub_0_r. reflexivity.
Qed.

Lemma sleeps_schedule (log : list event) : sleeps (schedule log) = sleeps log.
Proof.
  induction log as [|e log IH]; [reflexivity|].
  unfold schedule in *.
  destruct e;
    first [ rewrite filter_cons_True by reflexivity
          | rewrite filter_cons_False by (simpl; congruence) ];
    simpl; (exact IH || (f_equal; exact IH)).
Qed.

End Loop.

(* ===================================================================== *)
(** ** Properties of a run                                                *)
(* ===================================================================== *)

Lemma elapsed_app cost (l1 l2 : list event) :
  elapsed cost (l1 ++ l2) = (elapsed cost l1 + elapsed cost l2)%Qc.
Proof.
  induction l1 as [|e l1 IH]; simpl.
  - rewrite Qcplus_0_l. reflexivity.
  - rewrite IH. apply Qcplus_assoc.
Qed.

Lemma elapsed_nonneg cost (log : list event) :
  (∀ e, 0 ≤ cost e)%Qc → (0 ≤ elapsed cost log)%Qc.
Proof.
  intros Hc. induction log as [|e log IH]; simpl.
  - apply Qcle_refl.
  - apply Qcplus_nonneg_nonneg; auto.
Qed.

(** A log takes at least as long as the pauses it contains. *)
Lemma elapsed_sleeps cost (log : list event) :
  (∀ e, 0 ≤ cost e)%Qc → (∀ d, d ≤ cost (Sleep d))%Qc →
  (foldr Qcplus 0 (sleeps log) ≤ elapsed cost log)%Qc.
Proof.
  intros Hc Hs. induction log as [|e log IH]; [apply Qcle_refl|].
  destruct e; simpl;
    try (rewrite <- (Qcplus_0_l (foldr _ _ _));
         apply Qcplus_le_compat; [apply Hc | exact IH]).
  apply Qcplus_le_compat; [apply Hs | exact IH].
Qed.

Lemma sum_replicate (k : nat) (d : Qc) :
  foldr Qcplus 0%Qc (replicate k d) = (Qc_of_Z (Z.of_nat k) * d)%Qc.
Proof.
  induction k as [|k IH].
  - change (0%Qc = (Qc_of_Z 0 * d)%Qc).
    rewrite Z2Qc_inj_0, Qcmult_0_l. reflexivity.
  - change (foldr Qcplus 0%Qc (replicate (S k) d))
      with (d + foldr Qcplus 0%Qc (replicate k d))%Qc.
    rewrite IH, Nat2Z.inj_succ, <- Z.add_1_l, Z2Qc_inj_add, Z2Qc_inj_1.
    rewrite Qcmult_plus_distr_l, Qcmult_1_l. reflexivity.
Qed.

Section Run.

Variable network : nat → request → res response.
Variable api_key : string.
Variable include_markdown : bool.
Variable rate_limit : Qc.

Abbreviation run urls :=
  (scrape_all network api_key include_markdown rate_limit urls).

(** Whether every URL of the list is handled. *)
Abbreviation all_handled urls :=
  (forallb (λ p, handled network api_key include_markdown p.1 p.2)
           (enumerate_from 0 urls) = true).

(** A pass runs to its end when the pause is not negative and every URL
    is handled. *)
Lemma handled_run_returns (urls : list pyval) :
  (0 ≤ rate_limit)%Qc → all_handled urls →
  ∃ log results errors, run urls = (log, inr (results, errors)).
Proof.
  intros Hrate Hall.
  destruct (scrape_from_handled network api_key include_markdown
              rate_limit (length urls) 0 urls ([], []) Hrate Hall)
    as (log & [rs es] & H).
  exists log, rs, es. exact H.
Qed.

(** C1. A pass over the URL list that runs to its end has appended, for
    each URL, to exactly one of [results] and [errors]: the two lengths
    add up to the length of the input, and so do the counts of the
    exported summary.  The pass does run to its end whenever the pause
    is not negative and every URL is handled ([handled]). *)
Theorem success_plus_failure_is_total (urls : list pyval) :
  (∀ log results errors,
     run urls = (log, inr (results, errors)) →
     length results + length errors = length urls
     ∧ ∀ now, ∃ summary payloads errs,
         all_results now urls results errors
           = AllResultsJson summary payloads errs
         ∧ total_urls summary = length urls
         ∧ successful summary = length results
         ∧ failed summary = length errors
         ∧ successful summary + failed summary = total_urls summary)
  ∧ ((0 ≤ rate_limit)%Qc → all_handled urls →
     ∃ log results errors, run urls = (log, inr (results, errors))).
Proof.
  split; [|apply handled_run_returns].
  intros log results errors H. unfold scrape_all in H.
  apply scrape_from_count in H. simpl in H. split; [exact H|].
  intros now. unfold all_results. do 3 eexists.
  split; [reflexivity|]. simpl. auto.
Qed.

(** C5. The URLs are visited in input order from index 0: in a pass that
    runs to its end the requests sent are those of the input, in order,
    the URLs of [results] are the input URLs whose scrape did not fail,
    in input order, and the URLs of [errors] those whose scrape failed,
    in input order.  The pass does run to its end whenever the pause is
    not negative and every URL is handled. *)
Theorem outputs_keep_input_order (urls : list pyval) :
  (∀ log results errors,
     run urls = (log, inr (results, errors)) →
     posts log = map (λ u, scrape_request u api_key include_markdown) urls
     ∧ map url results =
         map snd (filter (λ p, failed_at network api_key include_markdown
                                 p.1 p.2 = false)
                         (enumerate_from 0 urls))
     ∧ map err_url errors =
         map snd (filter (λ p, failed_at network api_key include_markdown
                                 p.1 p.2 = true)
                         (enumerate_from 0 urls)))
  ∧ ((0 ≤ rate_limit)%Qc → all_handled urls →
     ∃ log results errors, run urls = (log, inr (results, errors))).
Proof.
  split; [|apply handled_run_returns].
  intros log results errors H. unfold scrape_all in H. split.
  - eapply scrape_from_posts. exact H.
  - apply scrape_from_order in H. exact H.
Qed.

(** C7. In a pass over [N] URLs that runs to its end, a request is
    followed by a pause of [rate_limit] seconds unless it is the last
    one, whatever the outcome of the request: [time.sleep] is called
    [N - 1] times (never for [N = 0]), each time with [rate_limit].  When
    no effect takes negative time and a pause takes at least the time
    asked for, a pass over [N ≥ 2] URLs takes at least
    [(N - 1) * rate_limit].  The pass does run to its end whenever the
    pause is not negative and every URL is handled. *)
Theorem throttle_is_honored (urls : list pyval) :
  (∀ log acc,
     run urls = (log, inr acc) →
     schedule log =
       throttled rate_limit
         (map (λ u, scrape_request u api_key include_markdown) urls)
     ∧ sleeps log = replicate (length urls - 1) rate_limit
     ∧ ∀ cost : event → Qc,
         (∀ e, 0 ≤ cost e)%Qc → (∀ d, d ≤ cost (Sleep d))%Qc →
         (2 ≤ length urls)%nat →
         (Qc_of_Z (Z.of_nat (length urls - 1)) * rate_limit
            ≤ elapsed cost log)%Qc)
  ∧ ((0 ≤ rate_limit)%Qc → all_handled urls →
     ∃ log results errors, run urls = (log, inr (results, errors))).
Proof.
  split; [|apply handled_run_returns].
  intros log acc H. unfold scrape_all in H.
  apply scrape_from_schedule in H; [|reflexivity].
  assert (Hs : sleeps log = replicate (length urls - 1) rate_limit).
  { rewrite <- sleeps_schedule, H, sleeps_throttled, length_map.
    reflexivity. }
  split; [exact H|]. split; [exact Hs|].
  intros cost Hc Hsl _. rewrite <- sum_replicate, <- Hs.
  apply elapsed_sleeps; assumption.
Qed.

End Run.

(** *** The three-URL scenario: two scrapes succeed, the third gets a 500 *)

Section ThreeUrls.

Import Scenario.

Abbreviation scenario_run := (scrape_all two_then_fail "key" true 1%Qc three_urls).

Lemma one_second_nonneg : (0 ≤ 1)%Qc.
Proof. intros H. discriminate H. Defined.

Lemma success_plus_failure_scenario :
  ∃ log results errors,
    scenario_run = (log, inr (results, errors))
    ∧ length results = 2 ∧ length errors = 1
    ∧ length results + length errors = length three_urls.
Proof.
  destruct (success_plus_failure_is_total two_then_fail "key" true 1%Qc
              three_urls) as [Hcount Hruns].
  destruct (Hruns one_second_nonneg ltac:(vm_compute; reflexivity))
    as (log & results & errors & H).
  exists log, results, errors. split; [exact H|].
  destruct (Hcount log results errors H) as [Hsum _].
  vm_compute in H. injection H as <- <- <-.
  repeat split; reflexivity.
Defined.

Lemma outputs_keep_input_order_scenario :
  ∃ log results errors,
    scenario_run = (log, inr (results, errors))
    ∧ map url results = [PStr "https://a.com"; PStr "https://b.com"]
    ∧ map err_url errors = [PStr "https://c.com"]
    ∧ posts log = map (λ u, scrape_request u "key" true) three_urls.
Proof.
  destruct (outputs_keep_input_order two_then_fail "key" true 1%Qc
              three_urls) as [Horder Hruns].
  destruct (Hruns one_second_nonneg ltac:(vm_compute; reflexivity))
    as (log & results & errors & H).
  exists log, results, errors. split; [exact H|].
  destruct (Horder log results errors H) as (Hposts & Hr & He).
  split; [rewrite Hr; vm_compute; reflexivity|].
  split; [rewrite He; vm_compute; reflexivity|].
  exact Hposts.
Defined.

Lemma pause_cost_nonneg (e : event) : (0 ≤ pause_cost e)%Qc.
Proof.
  destruct e; simpl; try apply Qcle_refl.
  destruct (decide (0 ≤ secs)%Qc); [assumption | apply Qcle_refl].
Defined.

Lemma pause_cost_sleep (d : Qc) : (d ≤ pause_cost (Sleep d))%Qc.
Proof.
  simpl. destruct (decide (0 ≤ d)%Qc) as [|Hn]; [apply Qcle_refl|].
  apply Qclt_le_weak, Qcnot_le_lt, Hn.
Defined.

Lemma throttle_is_honored_scenario :
  ∃ log acc,
    scenario_run = (log, inr acc)
    ∧ sleeps log = [1%Qc; 1%Qc]
    ∧ (Qc_of_Z 2 * 1 ≤ elapsed pause_cost log)%Qc.
Proof.
  destruct (throttle_is_honored two_then_fail "key" true 1%Qc three_urls)
    as [Hthrottle Hruns].
  destruct (Hruns one_second_nonneg ltac:(vm_compute; reflexivity))
    as (log & results & errors & H).
  exists log, (results, errors). split; [exact H|].
  destruct (Hthrottle log (results, errors) H) as (_ & Hsleeps & Helapsed).
  split; [exact Hsleeps|].
  apply (Helapsed pause_cost pause_cost_nonneg pause_cost_sleep).
  simpl. lia.
Defined.

End ThreeUrls.

(* ===================================================================== *)
(** ** The entry appended for a scraped URL                               *)
(* ===================================================================== *)

Section ResultEntry.

Lemma field_length_or (d : gmap string pyval) (key : string) :
  field_length (PDict d) key = py_len (field_or (d !! key) (PStr "")).
Proof.
  unfold field_length, field_or. simpl.
  destruct (d !! key) as [v|]; simpl; [|reflexivity].
  destruct (truthy v); reflexivity.
Qed.

(** C6, as stated, fails: a title that is present and empty is kept, where
    [title or "N/A"] gives ["N/A"]. *)
Lemma empty_title_is_kept :
  let d : gmap string pyval := <["title" := PStr ""]> ∅ in
  (∃ row, make_result (PStr "https://a.com") (PDict d) = inr row
          ∧ title row = PStr "")
  ∧ (∃ row, described_result (PStr "https://a.com") d = inr row
            ∧ title row = PStr "N/A")
  ∧ make_result (PStr "https://a.com") (PDict d)
    ≠ described_result (PStr "https://a.com") d.
Proof.
  cbv zeta. split; [|split].
  - eexists. split; vm_compute; reflexivity.
  - eexists. split; vm_compute; reflexivity.
  - intros Heq. vm_compute in Heq. discriminate Heq.
Qed.

(** A title that is present and null is kept as [None].  The statement
    below leaves this case out: the summary of the result page takes
    [len] of the title and raises on [None]. *)
Example null_title_is_kept :
  ∃ row, make_result (PStr "https://a.com")
           (PDict (<["title" := PNone]> ∅)) = inr row
         ∧ title row = PNone.
Proof. eexists. split; vm_compute; reflexivity. Qed.

(** C6, amended.  For a payload that is a dictionary in which [title]
    and [description] are each absent or a string, the appended entry
    has [title] and [description] equal to the field of the payload when
    the key is present, also when it is the empty string, and to ["N/A"]
    when the key is absent; [content_length = len(text or "")] and
    [markdown_length = len(markdown or "")].  The payload
    [{"title": "Example", "text": "hello"}] gives the title ["Example"],
    the description ["N/A"] and the lengths 5 and 0. *)
Theorem appended_entry_fields (u : pyval) (d : gmap string pyval) :
  absent_or_string (d !! "title") →
  absent_or_string (d !! "description") →
  make_result u (PDict d) = appended_result u d
  ∧ make_result u Scenario.example_payload
    = inr (ResultRow u (PStr "Example") (PStr "N/A") 5 0
             Scenario.example_payload).
Proof.
  intros Ht Hd. split; [|vm_compute; reflexivity].
  unfold make_result, appended_result. rewrite !field_length_or. simpl.
  destruct (d !! "title") as [[]|]; try contradiction;
    destruct (d !! "description") as [[]|]; try contradiction;
    reflexivity.
Qed.

(** The payload whose title is the empty string and which has no
    description. *)
Lemma appended_entry_fields_empty_title :
  make_result (PStr "https://a.com")
    (PDict (<["title" := PStr ""]> (<["text" := PStr "hello"]> ∅)))
  = inr (ResultRow (PStr "https://a.com") (PStr "") (PStr "N/A") 5 0
           (PDict (<["title" := PStr ""]> (<["text" := PStr "hello"]> ∅)))).
Proof.
  destruct (appended_entry_fields (PStr "https://a.com")
              (<["title" := PStr ""]> (<["text" := PStr "hello"]> ∅)))
    as [Hrow _].
  - vm_compute. exact I.
  - vm_compute. exact I.
  - rewrite Hrow. vm_compute. reflexivity.
Defined.

(** C9. When the payload maps [key] to a falsy value ([None], [False],
    [0], [0.0], an empty string, list or dictionary) or lacks it, the
    length computed for [key] is 0 and [len] is not called: nothing is
    raised.  So the entry has [content_length = 0] when [text] is falsy
    and [markdown_length = 0] when [markdown] is. *)
Theorem falsy_field_counts_zero (u : pyval) (d : gmap string pyval) :
  (∀ key, truthy (default PNone (d !! key)) = false →
          field_length (PDict d) key = inr 0)
  ∧ (truthy (default PNone (d !! "text")) = false →
     ∀ n, field_length (PDict d) "markdown" = inr n →
     ∃ row, make_result u (PDict d) = inr row
            ∧ content_length row = 0 ∧ markdown_length row = n)
  ∧ (truthy (default PNone (d !! "markdown")) = false →
     ∀ n, field_length (PDict d) "text" = inr n →
     ∃ row, make_result u (PDict d) = inr row
            ∧ content_length row = n ∧ markdown_length row = 0).
Proof.
  assert (Hzero : ∀ key, truthy (default PNone (d !! key)) = false →
                         field_length (PDict d) key = inr 0).
  { intros key H. unfold field_length. simpl.
    destruct (d !! key) as [v|]; simpl in *; [|reflexivity].
    rewrite H. reflexivity. }
  split; [exact Hzero|]. split.
  - intros Ht n Hm. unfold make_result. simpl.
    rewrite (Hzero _ Ht), Hm. simpl. eexists. repeat split.
  - intros Hm n Ht. unfold make_result. simpl.
    rewrite (Hzero _ Hm), Ht. simpl. eexists. repeat split.
Qed.

Lemma falsy_field_counts_zero_null_text :
  let d : gmap string pyval :=
    <["text" := PNone]> (<["markdown" := PInt 0]> ∅) in
  field_length (PDict d) "text" = inr 0
  ∧ field_length (PDict d) "markdown" = inr 0
  ∧ ∃ row, make_result (PStr "https://a.com") (PDict d) = inr row
           ∧ content_length row = 0 ∧ markdown_length row = 0.
Proof.
  cbv zeta.
  destruct (falsy_field_counts_zero (PStr "https://a.com")
              (<["text" := PNone]> (<["markdown" := PInt 0]> ∅)))
    as (Hzero & Htext & _).
  split; [apply Hzero; vm_compute; reflexivity|].
  split; [apply Hzero; vm_compute; reflexivity|].
  apply Htext; [vm_compute; reflexivity|].
  apply Hzero. vm_compute. reflexivity.
Defined.

End ResultEntry.

(* ===================================================================== *)
(** ** Failures of the HTTP interaction                                   *)
(* ===================================================================== *)

Section ClientFailure.


(** A transport failure whose message is empty: the client returns
    [(None, "")], the test [if error:] fails and [result.get] is called
    on [None]. *)
Example empty_message_is_not_recorded :
  let network := λ (_ : nat) (_ : request),
                   inl (Exn ConnectionError "") : res response in
  scrape_url (network 0) (PStr "https://a.com") "key" true
  = ([HttpPost (scrape_request (PStr "https://a.com") "key" true)],
     inr (PNone, Some ""))
  ∧ (scrape_one network "key" true 1%Qc 1 0 (PStr "https://a.com")
       ([], [])).2
    = inl (Exn AttributeError "'NoneType' object has no attribute 'get'").
Proof. split; vm_compute; reflexivity. Qed.

Variable network : nat → request → res response.
Variable api_key : string.
Variable include_markdown : bool.
Variable rate_limit : Qc.


End ClientFailure.


(* ===================================================================== *)
(** ** The extractor                                                      *)
(* ===================================================================== *)

Section ExtractorFacts.

Lemma split_nonempty (sep : ascii) (s : string) : split sep s ≠ [].
Proof.
  destruct s as [|c s]; simpl; [discriminate|].
  destruct (Ascii.eqb c sep); [discriminate|].
  destruct (split sep s); discriminate.
Qed.

Lemma split_no_separator (sep : ascii) (s : string) :
  contains (String sep "") s = false → split sep s = [s].
Proof.
  induction s as [|c s IH]; [reflexivity|].
  intros H. cbn [contains] in H. apply orb_false_iff in H as [Hp Hc].
  cbn [split]. destruct (Ascii.eqb_spec c sep) as [->|Hne].
  - exfalso. cbn [String.prefix] in Hp.
    destruct (ascii_dec sep sep); [|congruence].
    destruct s; discriminate Hp.
  - rewrite (IH Hc). reflexivity.
Qed.

Lemma split_after_separator (sep : ascii) (stem ext : string) :
  ∃ w ws, split sep (stem +:+ String sep ext) = (w :: ws) ++ split sep ext.
Proof.
  induction stem as [|c stem (w & ws & IH)]; simpl.
  - rewrite Ascii.eqb_refl. exists "", []. reflexivity.
  - rewrite IH. destruct (Ascii.eqb c sep).
    + exists "", (w :: ws). reflexivity.
    + exists (String c w), ws. reflexivity.
Qed.

(** The extension is the lower-cased text after the last dot. *)
Lemma file_extension_after_last_dot (stem ext : string) :
  contains "." ext = false →
  file_extension (stem +:+ "." +:+ ext) = lower ext.
Proof.
  intros Hext. unfold file_extension, last_item.
  change (stem +:+ "." +:+ ext) with (stem +:+ String "." ext).
  destruct (split_after_separator "." stem ext) as (w & ws & ->).
  rewrite (split_no_separator "." ext Hext).
  rewrite List.last_last. reflexivity.
Qed.

Variables read_csv read_excel : UploadedFile → res DataFrame.

Abbreviation read_urls := (read_urls_from_file read_csv read_excel).

Lemma read_urls_parsed (file : UploadedFile) (df : DataFrame) :
  parsed_as read_csv read_excel file df → read_urls file = guarded (extract_urls df).
Proof.
  unfold read_urls_from_file, guarded, try_except, bind, lift, ret, emit.
  intros [[Hext Hread]|[Hext Hread]].
  - rewrite Hext, Hread. simpl.
    destruct (extract_urls df) as [log [e|urls]]; simpl;
      rewrite ?app_nil_r; reflexivity.
  - destruct (String.eqb_spec (file_extension (name file)) "csv") as [Hc|_].
    + rewrite Hc in Hext. discriminate Hext.
    + rewrite Hext, Hread. simpl.
      destruct (extract_urls df) as [log [e|urls]]; simpl;
        rewrite ?app_nil_r; reflexivity.
Qed.

Lemma url_columns_unnamed (df : DataFrame) :
  unnamed df → url_columns df = inr [].
Proof.
  unfold url_columns, columns.
  induction 1 as [|[[c|cls text] cells] df Hc _ IH]; [reflexivity| |];
    simpl in *; [|contradiction].
  rewrite IH, Hc. reflexivity.
Qed.

Lemma url_columns_named (df : DataFrame) :
  named df → ∃ found, url_columns df = inr found.
Proof.
  unfold url_columns, columns.
  induction 1 as [|[[c|cls text] cells] df Hc _ [found IH]];
    [eexists; reflexivity| |]; simpl in *; [|contradiction].
  rewrite IH. eexists. reflexivity.
Qed.

Lemma url_columns_first (before after : DataFrame) c cells :
  unnamed before → contains "url" (lower c) = true → named after →
  ∃ others,
    url_columns (before ++ (LStr c, cells) :: after) = inr (LStr c :: others).
Proof.
  intros Hb Hc Ha. destruct (url_columns_named after Ha) as [found Hf].
  unfold url_columns, columns in *.
  induction Hb as [|[[c'|cls text] cells'] before Hc' _ [others IH]];
    simpl in *.
  - rewrite Hf, Hc. eauto.
  - rewrite IH, Hc'. eauto.
  - contradiction.
Qed.

Lemma getitem_first (before after : DataFrame) c cells :
  unnamed before → contains "url" (lower c) = true →
  getitem (before ++ (LStr c, cells) :: after) (LStr c) = inr cells.
Proof.
  intros Hb Hc.
  induction Hb as [|[[c'|cls text] cells'] before Hc' _ IH]; simpl.
  - rewrite String.eqb_refl. reflexivity.
  - destruct (String.eqb_spec c' c) as [->|_]; [|exact IH].
    simpl in Hc'. congruence.
  - exact IH.
Qed.

Lemma extract_url_column (before after : DataFrame) c cells :
  unnamed before → contains "url" (lower c) = true → named after →
  extract_urls (before ++ (LStr c, cells) :: after)
  = ([], inr (dropna cells)).
Proof.
  intros Hb Hc Ha. unfold extract_urls.
  destruct (url_columns_first before after c cells Hb Hc Ha) as [others ->].
  unfold bind, ret, lift. simpl.
  rewrite (getitem_first before after c cells Hb Hc). reflexivity.
Qed.

Lemma extract_first_column (c : string) cells (rest : DataFrame) :
  unnamed ((LStr c, cells) :: rest) →
  extract_urls ((LStr c, cells) :: rest)
  = ([StWarning ("No 'URL' column found. Using '" +:+ c
                 +:+ "' column instead.")],
     inr (dropna cells)).
Proof.
  intros Hu. unfold extract_urls. rewrite (url_columns_unnamed _ Hu).
  unfold bind, ret, lift, emit. simpl. rewrite String.eqb_refl. reflexivity.
Qed.

(** A label that is not a string stops the column choice, whatever the
    other labels are. *)
Lemma extract_numbered_column (before after : DataFrame) cls text cells :
  named before →
  extract_urls (before ++ (LOther cls text, cells) :: after)
  = ([], inl (Exn AttributeError
                ("'" +:+ cls +:+ "' object has no attribute 'lower'"))).
Proof.
  intros Hb. unfold extract_urls, url_columns, columns.
  assert (Hl : url_labels
                 (map fst (before ++ (LOther cls text, cells) :: after))
               = inl (Exn AttributeError
                        ("'" +:+ cls +:+ "' object has no attribute 'lower'"))).
  { induction Hb as [|[[c'|cls' text'] cells'] before Hc' _ IH]; simpl in *.
    - reflexivity.
    - rewrite IH. reflexivity.
    - contradiction. }
  rewrite Hl. reflexivity.
Qed.

End ExtractorFacts.

Section ExtractorProperties.

Variables read_csv read_excel : UploadedFile → res DataFrame.

Abbreviation read_urls := (read_urls_from_file read_csv read_excel).

(** C3, amended.  In a parsed table whose column labels are all strings,
    the leftmost column whose lower-cased name contains "url" is the one
    read, wherever it stands, and nothing is reported.  In such a table
    with at least one column and no such name, the leftmost column is
    read and a warning names it; the list is returned all the same. *)
Theorem url_column_is_selected (file : UploadedFile) (df : DataFrame) :
  parsed_as read_csv read_excel file df → named df →
  (∀ before c cells after,
     df = before ++ (LStr c, cells) :: after →
     unnamed before → contains "url" (lower c) = true →
     read_urls file = ([], inr (Some (tolist (dropna cells)))))
  ∧ (∀ c cells rest,
       df = (LStr c, cells) :: rest → unnamed df →
       read_urls file
       = ([StWarning ("No 'URL' column found. Using '" +:+ c
                      +:+ "' column instead.")],
          inr (Some (tolist (dropna cells))))).
Proof.
  intros Hp Hn. rewrite (read_urls_parsed _ _ _ _ Hp). split.
  - intros before c cells after -> Hb Hc.
    apply Forall_app in Hn as [_ Hn]. apply Forall_cons in Hn as [_ Ha].
    rewrite (extract_url_column before after c cells Hb Hc Ha). reflexivity.
  - intros c cells rest -> Hu.
    rewrite (extract_first_column c cells rest Hu). reflexivity.
Qed.

(** C4. The list extracted from a parsed table is the selected column
    without its missing cells, in row order: a missing cell is dropped
    and nothing is reported as an error, the list is no longer than the
    column, and it holds no missing value and, since the reader turns an
    empty cell into a missing one, no empty string. *)
Theorem extracted_urls_are_the_present_cells (file : UploadedFile)
    (df : DataFrame) (c : string) (cells : list pyval) :
  parsed_as read_csv read_excel file df → selects df c cells →
  ∃ log urls,
    read_urls file = (log, inr (Some urls))
    ∧ urls = filter (λ v, isna v = false) cells
    ∧ sublist urls cells
    ∧ (∀ msg, StError msg ∉ log)
    ∧ (length urls ≤ length cells)%nat
    ∧ Forall (λ v, isna v = false) urls
    ∧ (na_converted df → Forall (λ v, v ≠ PNone ∧ v ≠ PStr "") urls).
Proof.
  intros Hp Hsel.
  assert (Hin : (LStr c, cells) ∈ df).
  { destruct Hsel as [(before & after & -> & _)|(rest & -> & _)];
      set_solver. }
  assert (Hread : ∃ log, read_urls file = (log, inr (Some (dropna cells)))
                         ∧ ∀ msg, StError msg ∉ log).
  { rewrite (read_urls_parsed _ _ _ _ Hp).
    destruct Hsel as [(before & after & -> & Hb & Hc & Ha)|(rest & -> & Hu)].
    - rewrite (extract_url_column before after c cells Hb Hc Ha).
      eexists. split; [reflexivity|]. intros msg H. inversion H.
    - rewrite (extract_first_column c cells rest Hu).
      eexists. split; [reflexivity|].
      intros msg H. apply list_elem_of_singleton in H. discriminate H. }
  destruct Hread as (log & Hread & Hlog).
  exists log, (dropna cells). unfold dropna.
  split; [exact Hread|]. split; [reflexivity|].
  split; [apply sublist_filter|]. split; [exact Hlog|].
  split; [apply length_filter|].
  split; [apply Forall_forall; intros v Hv;
          apply list_elem_of_filter in Hv as [Hv _]; exact Hv|].
  intros Hna. apply Forall_forall. intros v Hv.
  apply list_elem_of_filter in Hv as [Hnotna Hv].
  split; [intros ->; discriminate Hnotna|].
  intros ->. unfold na_converted in Hna.
  rewrite Forall_forall in Hna. apply Hna in Hin.
  simpl in Hin. rewrite Forall_forall in Hin.
  specialize (Hin _ Hv "" eq_refl). discriminate Hin.
Qed.

(** C8. A file whose name ends in a dot and an extension other than
    [csv], [xlsx] and [xls] in any letter case is refused at once: the
    extractor reports the unsupported format and returns [None], neither
    reader is called, and the script does nothing more on this pass: no
    URL is shown and no request is sent. *)
Theorem unsupported_format_stops_the_run (file : UploadedFile)
    (stem ext : string) :
  name file = stem +:+ "." +:+ ext →
  contains "." ext = false →
  str_in (lower ext) ["csv"; "xlsx"; "xls"] = false →
  read_urls file
  = ([StError "Unsupported file format. Please upload a CSV or Excel file."],
     inr None)
  ∧ ∀ network api_key include_markdown rate_limit now button,
      main network api_key include_markdown rate_limit now
           read_csv read_excel (Some file) button
      = ([StError
            "Unsupported file format. Please upload a CSV or Excel file."],
         inr tt)
      ∧ posts (effects (main network api_key include_markdown rate_limit
                          now read_csv read_excel (Some file) button)) = [].
Proof.
  intros Hname Hdot Hext.
  assert (Hread : read_urls file
    = ([StError
          "Unsupported file format. Please upload a CSV or Excel file."],
       inr None)).
  { unfold read_urls_from_file.
    rewrite Hname, (file_extension_after_last_dot stem ext Hdot).
    simpl in Hext. apply orb_false_iff in Hext as [Hcsv Hext].
    rewrite Hcsv. unfold str_in. simpl. rewrite Hext. reflexivity. }
  split; [exact Hread|].
  intros network api_key include_markdown rate_limit now button.
  unfold main. rewrite Hread. split; reflexivity.
Qed.

End ExtractorProperties.

(** *** The extractor on concrete files *)

Section ExtractorExamples.

(** C3, as stated, fails on a parsed table without columns: no name
    contains "url", there is no leftmost column to fall back on, and the
    extractor reports an error and returns [None] instead of a list. *)
Lemma empty_sheet_is_a_read_error :
  let file := Uploaded "urls.xlsx" "" in
  parsed_as not_a_csv empty_sheet file []
  ∧ unnamed []
  ∧ read_urls_from_file not_a_csv empty_sheet file
    = ([StError ("Error reading file: "
                 +:+ "index 0 is out of bounds for axis 0 with size 0")],
       inr None)
  ∧ ¬ (∀ read_csv read_excel file df,
         parsed_as read_csv read_excel file df → unnamed df →
         ∃ log urls,
           read_urls_from_file read_csv read_excel file
           = (log, inr (Some urls))).
Proof.
  cbv zeta.
  assert (Hp : parsed_as not_a_csv empty_sheet (Uploaded "urls.xlsx" "") [])
    by (right; split; reflexivity).
  assert (Hu : unnamed []) by constructor.
  split; [exact Hp|]. split; [exact Hu|]. split; [reflexivity|].
  intros Hclaim. destruct (Hclaim _ _ _ _ Hp Hu) as (log & urls & H).
  vm_compute in H. discriminate H.
Qed.

(** A sheet whose header row holds a number: [col.lower()] raises on the
    label 2024, and the extractor reports an error and returns [None]
    although the column [URL] is there.  The statement of C3 above is
    about tables whose labels are all strings. *)
Example numbered_header_is_a_read_error :
  read_urls_from_file not_a_csv (λ _, inr numbered_sheet)
    (Uploaded "urls.xlsx" "")
  = ([StError ("Error reading file: "
               +:+ "'int' object has no attribute 'lower'")],
     inr None).
Proof. reflexivity. Qed.

Lemma url_column_is_selected_pages :
  read_urls_from_file (λ _, inr pages) not_a_workbook
    (Uploaded "pages.csv" "")
  = ([], inr (Some [a_com; b_com]))
  ∧ read_urls_from_file not_a_csv (λ _, inr websites)
      (Uploaded "websites.XLSX" "")
    = ([StWarning "No 'URL' column found. Using 'Website' column instead."],
       inr (Some [a_com; b_com])).
Proof.
  split.
  - refine (proj1 (url_column_is_selected (λ _, inr pages) not_a_workbook
                     (Uploaded "pages.csv" "") pages _ _)
              [(LStr "Name", [PStr "A"; PStr "B"; PStr "C"])] "Page URL"
              [a_com; PFloat S754_nan; b_com] [] _ _ _).
    + left. split; reflexivity.
    + repeat constructor.
    + reflexivity.
    + repeat constructor.
    + reflexivity.
  - refine (proj2 (url_column_is_selected not_a_csv (λ _, inr websites)
                     (Uploaded "websites.XLSX" "") websites _ _)
              "Website" [a_com; b_com] [] _ _).
    + right. split; reflexivity.
    + repeat constructor.
    + reflexivity.
    + repeat constructor.
Defined.

Lemma extracted_urls_scenario :
  ∃ log urls,
    read_urls_from_file (λ _, inr url_sheet) not_a_workbook
      (Uploaded "urls.csv" "")
    = (log, inr (Some urls))
    ∧ urls = [a_com; b_com]
    ∧ Forall (λ v, v ≠ PNone ∧ v ≠ PStr "") urls.
Proof.
  destruct (extracted_urls_are_the_present_cells
              (λ _, inr url_sheet) not_a_workbook (Uploaded "urls.csv" "")
              url_sheet "URL" [a_com; PFloat S754_nan; b_com])
    as (log & urls & Hread & Hurls & _ & _ & _ & _ & Hna).
  - left. split; reflexivity.
  - left. exists [], []. split; [reflexivity|].
    split; [constructor|]. split; [reflexivity|constructor].
  - exists log, urls. split; [exact Hread|]. split; [exact Hurls|].
    apply Hna. repeat constructor; intros s [= <-]; reflexivity.
Defined.

Lemma unsupported_format_text_file :
  read_urls_from_file not_a_csv not_a_workbook (Uploaded "urls.TXT" "")
  = ([StError "Unsupported file format. Please upload a CSV or Excel file."],
     inr None)
  ∧ posts (effects (main Scenario.two_then_fail "key" true 1%Qc "now"
                      not_a_csv not_a_workbook
                      (Some (Uploaded "urls.TXT" "")) true)) = [].
Proof.
  destruct (unsupported_format_stops_the_run not_a_csv not_a_workbook
              (Uploaded "urls.TXT" "") "urls" "TXT")
    as [Hread Hmain]; try reflexivity.
  split; [exact Hread|].
  apply (Hmain Scenario.two_then_fail "key" true 1%Qc "now" true).
Defined.

End ExtractorExamples.

(* ===================================================================== *)
(** ** The downloads offered after a run                                  *)
(* ===================================================================== *)

Section Exports.

Variable network : nat → request → res response.
Variable api_key : string.
Variable include_markdown : bool.
Variable rate_limit : Qc.
Variable now : string.
Variables read_csv read_excel : UploadedFile → res DataFrame.

Abbreviation shown urls acc := (show_results include_markdown now urls acc).

(** What is shown when nothing was scraped. *)
Lemma show_results_no_result (urls : list pyval) (errors : list error_row) :
  shown urls ([], errors)
  = ([ClearProgress; StSuccess 0 (length urls)]
     ++ (if nonempty errors
         then [ErrorTable errors; DownloadButton (ErrorsCsv errors)]
         else [StInfo "No errors occurred during scraping!"]),
     inr tt).
Proof. destruct errors; reflexivity. Qed.

Lemma filter_all_true {A} (f : A → bool) (l : list A) :
  forallb f l = true → filter (λ a, f a = false) l = [].
Proof.
  induction l as [|a l IH]; [reflexivity|]. simpl.
  intros [Ha Hl]%andb_true_iff.
  rewrite filter_cons_False by congruence. exact (IH Hl).
Qed.

(** In a run where every scrape fails, [results] stays empty. *)
Lemma all_failed_no_result (urls : list pyval) log results errors :
  scrape_all network api_key include_markdown rate_limit urls
  = (log, inr (results, errors)) →
  forallb (λ p, failed_at network api_key include_markdown p.1 p.2)
          (enumerate_from 0 urls) = true →
  results = [] ∧ length errors = length urls.
Proof.
  intros Hrun Hall.
  unfold scrape_all in Hrun.
  destruct (scrape_from_order _ _ _ _ _ _ _ _ _ _ _ _ Hrun) as [Hr _].
  pose proof (scrape_from_count _ _ _ _ _ _ _ _ _ _ _ _ Hrun) as Hcount.
  simpl in Hr.
  assert (Hnil : results = []).
  { apply (f_equal length) in Hr. rewrite !length_map in Hr.
    destruct results; [reflexivity|]. exfalso.
    rewrite (filter_all_true _ _ Hall) in Hr. discriminate Hr. }
  subst results. split; [reflexivity|]. simpl in Hcount. exact Hcount.
Qed.

(** C10. The aggregate JSON and the summary CSV are offered only when
    [results] is not empty.  After a run in which every scrape fails the
    only download offered is the CSV of the errors: the summary of the run
    is not exported. *)
Theorem exports_need_a_result (urls : list pyval)
    (results : list result_row) (errors : list error_row) :
  (∀ summary payloads errs,
     DownloadButton (AllResultsJson summary payloads errs)
       ∈ effects (shown urls (results, errors)) → results ≠ [])
  ∧ (∀ rows, DownloadButton (SummaryCsv rows)
               ∈ effects (shown urls (results, errors)) → results ≠ [])
  ∧ (∀ log file read_log,
       urls ≠ [] → api_key ≠ "" →
       read_urls_from_file read_csv read_excel file
       = (read_log, inr (Some urls)) →
       scrape_all network api_key include_markdown rate_limit urls
       = (log, inr (results, errors)) →
       forallb (λ p, failed_at network api_key include_markdown p.1 p.2)
               (enumerate_from 0 urls) = true →
       results = [] ∧ errors ≠ []
       ∧ main network api_key include_markdown rate_limit now
              read_csv read_excel (Some file) true
         = (read_log ++ [FileSummary (length urls) (take 10 urls)] ++ log
            ++ [ClearProgress; StSuccess 0 (length urls);
                ErrorTable errors; DownloadButton (ErrorsCsv errors)],
            inr tt)).
Proof.
  assert (Hnone : ∀ d, (∀ rows, d ≠ ErrorsCsv rows) →
            DownloadButton d ∈ effects (shown urls (results, errors)) →
            results ≠ []).
  { intros d Hd Hin ->. rewrite show_results_no_result in Hin.
    unfold effects in Hin. simpl in Hin.
    destruct errors; simpl in Hin;
      repeat (apply elem_of_cons in Hin as [Hin|Hin];
              [try discriminate Hin|]);
      try (inversion Hin; fail).
    injection Hin as ->. eapply Hd. reflexivity. }
  split; [intros; eapply Hnone; [|eassumption]; discriminate|].
  split; [intros; eapply Hnone; [|eassumption]; discriminate|].
  intros log file read_log Hurls Hkey Hread Hrun Hall.
  destruct (all_failed_no_result urls log results errors Hrun Hall)
    as [-> Hlen].
  assert (Herr : errors ≠ []).
  { intros ->. destruct urls; [congruence|discriminate Hlen]. }
  split; [reflexivity|]. split; [exact Herr|].
  unfold main. rewrite Hread. unfold bind at 1.
  destruct urls as [|u us]; [congruence|].
  apply truthy_str in Hkey. rewrite Hkey. cbn [negb].
  unfold bind at 1, emit. rewrite Hrun. unfold bind.
  rewrite show_results_no_result.
  destruct errors; [congruence|]. reflexivity.
Qed.

End Exports.

(** Two URLs, both answered with a 500: only the errors can be
    downloaded.  In the three-URL scenario the aggregate JSON is offered,
    and [results] is not empty. *)
Lemma exports_need_a_result_all_failed :
  (∃ log errors,
     scrape_all (λ _ _, Scenario.server_error) "key" true 1%Qc
       [a_com; b_com] = (log, inr ([], errors))
     ∧ main (λ _ _, Scenario.server_error) "key" true 1%Qc "now"
         (λ _, inr url_sheet) not_a_workbook
         (Some (Uploaded "urls.csv" "")) true
       = ([] ++ [FileSummary 2 [a_com; b_com]] ++ log
          ++ [ClearProgress; StSuccess 0 2; ErrorTable errors;
              DownloadButton (ErrorsCsv errors)],
          inr tt))
  ∧ (∃ log results errors,
       scrape_all Scenario.two_then_fail "key" true 1%Qc Scenario.three_urls
       = (log, inr (results, errors))
       ∧ DownloadButton
           (all_results "now" Scenario.three_urls results errors)
           ∈ effects (show_results true "now" Scenario.three_urls
                        (results, errors))
       ∧ results ≠ []).
Proof.
  split.
  - eexists _, _. split; [vm_compute; reflexivity|].
    eapply (exports_need_a_result (λ _ _, Scenario.server_error) "key" true
              1%Qc "now" (λ _, inr url_sheet) not_a_workbook
              [a_com; b_com]).
    + discriminate.
    + discriminate.
    + vm_compute. reflexivity.
    + vm_compute. reflexivity.
    + vm_compute. reflexivity.
  - eexists _, _, _. split; [vm_compute; reflexivity|].
    match goal with
    | |- ?P ∧ _ => assert (Hin : P) by (vm_compute; repeat constructor)
    end.
    split; [exact Hin|].
    eapply (proj1 (exports_need_a_result Scenario.two_then_fail "key" true
                     1%Qc "now" not_a_csv not_a_workbook
                     Scenario.three_urls _ _)).
    exact Hin.
Defined.

(* ===================================================================== *)
(** ** More on the client                                                 *)
(* ===================================================================== *)

Section Client.

Variable transport : request → res response.
Variable u : pyval.
Variable api_key : string.
Variable include_markdown : bool.

Abbreviation the_request := (scrape_request u api_key include_markdown).
Abbreviation the_call := (scrape_url transport u api_key include_markdown).


End Client.

(* ===================================================================== *)
(** ** More on the extractor                                              *)
(* ===================================================================== *)

Section ExtractorOutcomes.

Variables read_csv read_excel : UploadedFile → res DataFrame.

Abbreviation read_urls := (read_urls_from_file read_csv read_excel).

(** The extraction itself reports at most the warning of line 93. *)
Lemma extract_urls_log (df : DataFrame) :
  ∃ log r, extract_urls df = (log, r)
           ∧ (log = [] ∨ ∃ msg, log = [StWarning msg]).
Proof.
  unfold extract_urls, bind, ret, lift, emit.
  destruct (url_columns df) as [e|[|c cs]]; simpl.
  - eauto 6.
  - destruct (columns_0 df) as [e|c]; simpl; [eauto 6|].
    destruct (getitem df c); simpl; eauto 7.
  - destruct (getitem df c); simpl; eauto 6.
Qed.

(** The three ways the function ends. *)
Lemma read_urls_cases (file : UploadedFile) :
  read_urls file
  = ([StError "Unsupported file format. Please upload a CSV or Excel file."],
     inr None)
  ∨ (∃ e, read_urls file
          = ([StError ("Error reading file: " +:+ str_exn e)], inr None))
  ∨ (∃ df, read_urls file = guarded (extract_urls df)).
Proof.
  unfold read_urls_from_file, try_except, bind, lift, ret, emit, guarded.
  destruct (String.eqb _ "csv").
  - destruct (read_csv file) as [e|df]; simpl; [right; left; eauto|].
    right. right. exists df.
    destruct (extract_urls df) as [log [e|urls]]; simpl;
      rewrite ?app_nil_r; reflexivity.
  - destruct (str_in _ _).
    + destruct (read_excel file) as [e|df]; simpl; [right; left; eauto|].
      right. right. exists df.
      destruct (extract_urls df) as [log [e|urls]]; simpl;
        rewrite ?app_nil_r; reflexivity.
    + left. reflexivity.
Qed.

(** X3.  Nothing escapes the extractor: whatever the file and whatever the
    readers do, it returns.  It returns [None] exactly when it has
    reported an error with [st.error], and that is then the last thing it
    did; when it returns a list it has reported no error. *)
Theorem extractor_reports_what_it_refuses (file : UploadedFile) :
  ∃ log r,
    read_urls file = (log, inr r)
    ∧ (r = None ↔ ∃ msg, StError msg ∈ log)
    ∧ (r = None → ∃ before msg, log = before ++ [StError msg]).
Proof.
  destruct (read_urls_cases file) as [->|[[e ->]|[df ->]]].
  - eexists _, _. split; [reflexivity|]. split.
    + split; [intros _; eexists; apply list_elem_of_here|reflexivity].
    + intros _. exists []. eexists. reflexivity.
  - eexists _, _. split; [reflexivity|]. split.
    + split; [intros _; eexists; apply list_elem_of_here|reflexivity].
    + intros _. exists []. eexists. reflexivity.
  - destruct (extract_urls_log df) as (log & r & -> & Hlog).
    destruct r as [e|urls]; simpl.
    + eexists _, _. split; [reflexivity|]. split.
      * split; [intros _; eexists; apply elem_of_app; right;
                apply list_elem_of_here|reflexivity].
      * intros _. eexists _, _. reflexivity.
    + eexists _, _. split; [reflexivity|]. split.
      * split; [discriminate|]. intros [msg Hin]. exfalso.
        destruct Hlog as [->|[w ->]]; [inversion Hin|].
        apply list_elem_of_singleton in Hin. discriminate Hin.
      * discriminate.
Qed.

(** X4.  When the reader chosen by the extension raises, the extractor
    reports "Error reading file: " followed by the message of the
    exception, and returns [None]. *)
Theorem reader_failure_is_reported (file : UploadedFile) (e : exn) :
  (file_extension (name file) = "csv" ∧ read_csv file = inl e)
  ∨ (str_in (file_extension (name file)) ["xlsx"; "xls"] = true
     ∧ read_excel file = inl e) →
  read_urls file
  = ([StError ("Error reading file: " +:+ exn_msg e)], inr None).
Proof.
  unfold read_urls_from_file, try_except, bind, lift, ret, emit.
  intros [[Hext Hread]|[Hext Hread]].
  - rewrite Hext, Hread. reflexivity.
  - destruct (String.eqb_spec (file_extension (name file)) "csv") as [Hc|_].
    + rewrite Hc in Hext. discriminate Hext.
    + rewrite Hext, Hread. reflexivity.
Qed.

End ExtractorOutcomes.

Lemma reader_failure_is_reported_broken_csv :
  read_urls_from_file not_a_csv not_a_workbook (Uploaded "urls.csv" "")
  = ([StError "Error reading file: Error tokenizing data"], inr None).
Proof.
  apply (reader_failure_is_reported not_a_csv not_a_workbook
           (Uploaded "urls.csv" "")
           (Exn ParserError "Error tokenizing data")).
  left. split; reflexivity.
Defined.

Section ExtensionDispatch.

Variables read_csv read_excel : UploadedFile → res DataFrame.

Lemma file_extension_declared (file_name ext : string) :
  declares file_name ext → file_extension file_name = lower ext.
Proof.
  intros [Hdot [->|[stem ->]]].
  - unfold file_extension. rewrite (split_no_separator "." ext Hdot).
    reflexivity.
  - apply file_extension_after_last_dot. exact Hdot.
Qed.

(** X5.  The reader is chosen by the extension the name declares, read without
    regard to letter case: [pd.read_csv] for [csv], [pd.read_excel] for
    [xlsx] and [xls].  A name without a dot is its own extension, so a
    file called [CSV] is read as a CSV file.  What the chosen reader
    returns is the table the URLs are taken from. *)
Theorem extension_chooses_the_reader (file : UploadedFile) (ext : string)
    (df : DataFrame) :
  declares (name file) ext →
  (lower ext = "csv" ∧ read_csv file = inr df)
  ∨ (str_in (lower ext) ["xlsx"; "xls"] = true ∧ read_excel file = inr df) →
  read_urls_from_file read_csv read_excel file = guarded (extract_urls df).
Proof.
  intros Hdecl Hread. apply read_urls_parsed.
  unfold parsed_as. rewrite (file_extension_declared _ _ Hdecl). exact Hread.
Qed.

End ExtensionDispatch.

Lemma extension_chooses_the_reader_upper_case :
  read_urls_from_file (λ _, inr url_sheet) not_a_workbook
    (Uploaded "CSV" "")
  = ([], inr (Some [a_com; b_com]))
  ∧ read_urls_from_file not_a_csv (λ _, inr url_sheet)
      (Uploaded "my.urls.XlS" "")
    = ([], inr (Some [a_com; b_com])).
Proof.
  split.
  - rewrite (extension_chooses_the_reader (λ _, inr url_sheet)
               not_a_workbook (Uploaded "CSV" "") "CSV" url_sheet).
    + reflexivity.
    + split; [reflexivity|]. left. reflexivity.
    + left. split; reflexivity.
  - rewrite (extension_chooses_the_reader not_a_csv (λ _, inr url_sheet)
               (Uploaded "my.urls.XlS" "") "XlS" url_sheet).
    + reflexivity.
    + split; [reflexivity|]. right. exists "my.urls". reflexivity.
    + right. split; reflexivity.
Defined.

(* ===================================================================== *)
(** ** More on the main flow                                              *)
(* ===================================================================== *)

Section MainFlow.

Variable network : nat → request → res response.
Variable api_key : string.
Variable include_markdown : bool.
Variable rate_limit : Qc.
Variable now : string.
Variables read_csv read_excel : UploadedFile → res DataFrame.

Abbreviation script uploaded button :=
  (main network api_key include_markdown rate_limit now read_csv read_excel
        uploaded button).

Lemma dropna_all_missing (cells : list pyval) :
  Forall (λ v, isna v = true) cells → dropna cells = [].
Proof.
  unfold dropna. induction 1 as [|v cells Hv _ IH]; [reflexivity|].
  rewrite filter_cons_False by congruence. exact IH.
Qed.

(** X6.  When every cell of the selected column is missing the list of URLs
    is empty, and the script then does nothing more on this pass: beyond
    the warning about the column, if any, it shows nothing, sends no
    request and reports no error, whether the button was pressed or not. *)
Theorem empty_column_is_silent (file : UploadedFile) (df : DataFrame)
    (c : string) (cells : list pyval) (button : bool) :
  parsed_as read_csv read_excel file df → selects df c cells →
  Forall (λ v, isna v = true) cells →
  ∃ log, script (Some file) button = (log, inr tt)
         ∧ (log = [] ∨ ∃ msg, log = [StWarning msg]).
Proof.
  intros Hp Hsel Hmissing. unfold main.
  rewrite (read_urls_parsed _ _ _ _ Hp).
  destruct Hsel as [(before & after & -> & Hb & Hc & Ha)|(rest & -> & Hu)].
  - rewrite (extract_url_column before after c cells Hb Hc Ha).
    rewrite (dropna_all_missing cells Hmissing).
    eexists. split; [reflexivity|]. left. reflexivity.
  - rewrite (extract_first_column c cells rest Hu).
    rewrite (dropna_all_missing cells Hmissing).
    eexists. split; [reflexivity|]. right. eexists. reflexivity.
Qed.

Lemma read_urls_sends_nothing (file : UploadedFile) :
  ∃ log r, read_urls_from_file read_csv read_excel file = (log, inr r)
           ∧ posts log = [].
Proof.
  destruct (read_urls_cases read_csv read_excel file)
    as [->|[[e ->]|[df ->]]].
  - eexists _, _. split; reflexivity.
  - eexists _, _. split; reflexivity.
  - destruct (extract_urls_log df) as (log & r & -> & Hlog).
    destruct r as [e|urls]; simpl; eexists _, _; (split; [reflexivity|]);
      destruct Hlog as [->|[w ->]]; reflexivity.
Qed.

(** X7.  No request leaves the script unless the button was pressed and an
    API key is set: with the button not pressed, or with an empty key,
    the script sends nothing, whatever was uploaded; with an empty key
    and the button pressed it asks for the key instead. *)
Theorem no_request_without_key_or_click (uploaded : option UploadedFile)
    (button : bool) :
  button = false ∨ api_key = "" →
  posts (effects (script uploaded button)) = []
  ∧ (button = true → ∀ file urls log,
       uploaded = Some file → urls ≠ [] →
       read_urls_from_file read_csv read_excel file
       = (log, inr (Some urls)) →
       script uploaded button
       = (log ++ [FileSummary (length urls) (take 10 urls);
                  StError
                    "Please enter a Serper API key in the sidebar to continue"],
          inr tt)).
Proof.
  intros Hoff. split.
  - unfold main. destruct uploaded as [file|]; [|reflexivity].
    destruct (read_urls_sends_nothing file) as (log & r & -> & Hlog).
    destruct r as [[|u0 us]|];
      [unfold bind, effects; simpl; rewrite app_nil_r; exact Hlog
      | |unfold bind, effects; simpl; rewrite app_nil_r; exact Hlog].
    destruct Hoff as [->| ->].
    + unfold bind, emit, ret, effects. cbn [fst]. rewrite posts_app, Hlog.
      reflexivity.
    + destruct button; unfold bind, emit, ret, effects;
        cbn [fst truthy String.eqb negb];
        rewrite posts_app, Hlog; reflexivity.
  - intros -> file urls log -> Hurls Hread.
    destruct Hoff as [Hb| ->]; [discriminate Hb|].
    unfold main. rewrite Hread. unfold bind.
    destruct urls as [|u0 us]; [congruence|]. reflexivity.
Qed.

End MainFlow.

Lemma empty_column_is_silent_blank_sheet :
  ∃ log,
    main Scenario.two_then_fail "key" true 1%Qc "now"
      (λ _, inr [(LStr "Website", [PFloat S754_nan; PNone])]) not_a_workbook
      (Some (Uploaded "blank.csv" "")) true
    = (log, inr tt)
    ∧ (log = [] ∨ ∃ msg, log = [StWarning msg]).
Proof.
  apply (empty_column_is_silent Scenario.two_then_fail "key" true 1%Qc "now"
           (λ _, inr [(LStr "Website", [PFloat S754_nan; PNone])]) not_a_workbook
           (Uploaded "blank.csv" "")
           [(LStr "Website", [PFloat S754_nan; PNone])] "Website"
           [PFloat S754_nan; PNone] true).
  - left. split; reflexivity.
  - right. exists []. split; [reflexivity|]. repeat constructor.
  - repeat constructor.
Defined.

Lemma no_request_without_key_scenario :
  posts (effects (main Scenario.two_then_fail "" true 1%Qc "now"
                    (λ _, inr url_sheet) not_a_workbook
                    (Some (Uploaded "urls.csv" "")) true)) = []
  ∧ main Scenario.two_then_fail "" true 1%Qc "now"
      (λ _, inr url_sheet) not_a_workbook
      (Some (Uploaded "urls.csv" "")) true
    = ([] ++ [FileSummary 2 [a_com; b_com];
              StError
                "Please enter a Serper API key in the sidebar to continue"],
       inr tt).
Proof.
  destruct (no_request_without_key_or_click Scenario.two_then_fail "" true
              1%Qc "now" (λ _, inr url_sheet) not_a_workbook
              (Some (Uploaded "urls.csv" "")) true) as [Hposts Hmain].
  - right. reflexivity.
  - split; [exact Hposts|].
    apply (Hmain eq_refl (Uploaded "urls.csv" "") [a_com; b_com] []);
      [reflexivity|discriminate|reflexivity].
Defined.

(* ===================================================================== *)
(** ** More on the scrape loop                                            *)
(* ===================================================================== *)

Section LoopOutcomes.

Variable network : nat → request → res response.
Variable api_key : string.
Variable include_markdown : bool.
Variable rate_limit : Qc.

Abbreviation request_of url := (scrape_request url api_key include_markdown).
Abbreviation client i url :=
  (scrape_url (network i) url api_key include_markdown).
Abbreviation one n i url acc :=
  (scrape_one network api_key include_markdown rate_limit n i url acc).
Abbreviation from n i urls acc :=
  (scrape_from network api_key include_markdown rate_limit n i urls acc).
Abbreviation pass urls :=
  (scrape_all network api_key include_markdown rate_limit urls).

Lemma returned_client i url :
  returned (client i url)
  = match client_result (network i) url api_key include_markdown with
    | inr a => Some a
    | inl _ => None
    end.
Proof. rewrite scrape_url_unfold. reflexivity. Qed.

Lemma field_length_sized (d : gmap string pyval) (key : string) (n : nat) :
  field_length (PDict d) key = inr n →
  sized_or_falsy (default PNone (d !! key)) = true.
Proof.
  unfold field_length, sized_or_falsy. simpl.
  destruct (d !! key) as [v|]; simpl; [|reflexivity].
  destruct (truthy v); simpl; [|reflexivity].
  destruct (py_len v); [discriminate|reflexivity].
Qed.

Lemma make_result_returns (url result : pyval) (row : result_row) :
  make_result url result = inr row → payload_accepted result = true.
Proof.
  unfold make_result, res_bind.
  destruct result; simpl; try discriminate.
  destruct (field_length (PDict d) "text") as [|nt] eqn:Ht; [discriminate|].
  destruct (field_length (PDict d) "markdown") as [|nm] eqn:Hm;
    [discriminate|].
  intros _. apply field_length_sized in Ht, Hm.
  rewrite Ht, Hm. reflexivity.
Qed.

Lemma field_length_type_error (d : gmap string pyval) (key : string) e :
  field_length (PDict d) key = inl e → exn_cls e = TypeError.
Proof.
  unfold field_length. simpl.
  destruct (d !! key) as [v|]; simpl; [|discriminate].
  destruct (truthy v); simpl; [|discriminate].
  destruct v; simpl; try discriminate; intros [= <-]; reflexivity.
Qed.

(** X8.  The entry of [results] is built exactly for an accepted payload: a
    dictionary whose [text] and [markdown] are falsy, absent or have a
    length.  Any other JSON value (a list, a string, a number, [null])
    raises [AttributeError] at [result.get], and a dictionary whose
    [text] or [markdown] is a number or [true] raises [TypeError] at
    [len]. *)
Theorem entry_is_built_iff_accepted (url result : pyval) :
  ((∃ row, make_result url result = inr row)
   ↔ payload_accepted result = true)
  ∧ ((∀ d, result ≠ PDict d) →
     ∃ msg, make_result url result = inl (Exn AttributeError msg))
  ∧ (∀ d e, result = PDict d → make_result url result = inl e →
            exn_cls e = TypeError).
Proof.
  split; [split|split].
  - intros [row H]. exact (make_result_returns _ _ _ H).
  - apply make_result_accepted.
  - intros Hd. destruct result; try (eexists; reflexivity).
    exfalso. eapply Hd. reflexivity.
  - intros d e ->. unfold make_result, res_bind. simpl.
    destruct (field_length (PDict d) "text") as [e1|nt] eqn:Ht.
    + intros [= <-]. exact (field_length_type_error _ _ _ Ht).
    + destruct (field_length (PDict d) "markdown") as [e2|nm] eqn:Hm;
        [|discriminate].
      intros [= <-]. exact (field_length_type_error _ _ _ Hm).
Qed.




End LoopOutcomes.


Section Collecting.

Variable network : nat → request → res response.
Variable api_key : string.
Variable include_markdown : bool.
Variable rate_limit : Qc.

Abbreviation request_of url := (scrape_request url api_key include_markdown).
Abbreviation client i url :=
  (scrape_url (network i) url api_key include_markdown).
Abbreviation one n i url acc :=
  (scrape_one network api_key include_markdown rate_limit n i url acc).
Abbreviation from n i urls acc :=
  (scrape_from network api_key include_markdown rate_limit n i urls acc).
Abbreviation pass urls :=
  (scrape_all network api_key include_markdown rate_limit urls).
Abbreviation scraped_at := (scraped network api_key include_markdown).
Abbreviation refused_at := (refused network api_key include_markdown).

Lemma scraped_value i u :
  scraped_at (i, u)
  = match client_result (network i) u api_key include_markdown with
    | inr (result, error) =>
        if error_set error then None
        else match make_result u result with
             | inr row => Some row
             | inl _ => None
             end
    | inl _ => None
    end.
Proof.
  unfold scraped. cbn [fst snd]. rewrite returned_client.
  destruct (client_result _ _ _ _) as [|[result error]]; reflexivity.
Qed.

Lemma refused_value i u :
  refused_at (i, u)
  = match client_result (network i) u api_key include_markdown with
    | inr (_, error) =>
        if error_set error then Some (ErrorRow u (default "" error))
        else None
    | inl _ => None
    end.
Proof.
  unfold refused. cbn [fst snd]. rewrite returned_client.
  destruct (client_result _ _ _ _) as [|[result error]]; reflexivity.
Qed.

Lemma scrape_from_collects n i urls rs es log rs' es' :
  from n i urls (rs, es) = (log, inr (rs', es')) →
  rs' = rs ++ omap scraped_at (enumerate_from i urls)
  ∧ es' = es ++ omap refused_at (enumerate_from i urls).
Proof.
  revert i rs es log.
  induction urls as [|u rest IH]; intros i rs es log H.
  - simpl in H. injection H as <- <- <-. simpl. rewrite !app_nil_r. auto.
  - apply scrape_from_cons in H as (log1 & [rs1 es1] & log2 & H1 & H2 & ->).
    apply IH in H2 as [-> ->]. clear IH.
    apply scrape_one_inv in H1 as (shown & _ & _ & Hcase).
    cbn [enumerate_from]. simpl omap.
    rewrite scraped_value, refused_value.
    destruct Hcase as [(result & msg & -> & Hm & [= -> ->])
                      |(result & error & row & -> & Herr & Hrow & [= -> ->])].
    + apply truthy_str in Hm. cbn [error_set]. rewrite Hm.
      rewrite <- !app_assoc. split; reflexivity.
    + rewrite Herr, Hrow. rewrite <- !app_assoc. split; reflexivity.
Qed.

Lemma enumerate_from_lookup {A} (k i : nat) (a : A) (l : list A) :
  (i, a) ∈ enumerate_from k l → (k ≤ i)%nat ∧ l !! (i - k)%nat = Some a.
Proof.
  revert k. induction l as [|b l IH]; intros k H; [inversion H|].
  simpl in H. apply elem_of_cons in H as [[= -> ->]|H].
  - split; [lia|]. rewrite Nat.sub_diag. reflexivity.
  - apply IH in H as [Hle Hl]. split; [lia|].
    replace (i - k)%nat with (S (i - S k)) by lia. exact Hl.
Qed.

(** X10.  What a finished pass has collected.  [results] holds, in input order,
    one entry for each URL whose scrape returned no error, built from the
    payload the client returned for it, which is kept as it came in
    [full_result]; [errors] holds, in input order, one entry for each URL
    whose scrape returned an error, with the message the client
    returned. *)
Theorem pass_collects_what_the_client_returns (urls : list pyval)
    log results errors :
  pass urls = (log, inr (results, errors)) →
  results = omap scraped_at (enumerate_from 0 urls)
  ∧ errors = omap refused_at (enumerate_from 0 urls)
  ∧ Forall (λ row, ∃ i error,
              urls !! i = Some (url row)
              ∧ returned (client i (url row))
                = Some (full_result row, error)
              ∧ error_set error = false) results
  ∧ Forall (λ row, ∃ i result,
              urls !! i = Some (err_url row)
              ∧ returned (client i (err_url row))
                = Some (result, Some (error row))
              ∧ error row ≠ "") errors.
Proof.
  intros H. unfold scrape_all in H.
  apply scrape_from_collects in H as [-> ->]. simpl.
  split; [reflexivity|]. split; [reflexivity|]. split.
  - apply Forall_forall. intros row Hrow.
    apply list_elem_of_omap in Hrow as ([i u] & Hin & Hs).
    apply enumerate_from_lookup in Hin as [_ Hu]. rewrite Nat.sub_0_r in Hu.
    unfold scraped in Hs. cbn [fst snd] in Hs.
    destruct (returned (client i u)) as [[result error]|] eqn:Hc;
      [|discriminate].
    destruct (error_set error) eqn:He; [discriminate|].
    destruct (make_result u result) as [|row'] eqn:Hm; [discriminate|].
    injection Hs as ->. apply make_result_fields in Hm as [-> ->].
    exists i, error. auto.
  - apply Forall_forall. intros row Hrow.
    apply list_elem_of_omap in Hrow as ([i u] & Hin & Hs).
    apply enumerate_from_lookup in Hin as [_ Hu]. rewrite Nat.sub_0_r in Hu.
    unfold refused in Hs. cbn [fst snd] in Hs.
    destruct (returned (client i u)) as [[result error]|] eqn:Hc;
      [|discriminate].
    destruct (error_set error) eqn:He; [|discriminate].
    injection Hs as <-. simpl.
    destruct error as [msg|]; [|discriminate]. simpl in *.
    exists i, result. split; [exact Hu|]. split; [exact Hc|].
    apply truthy_str. exact He.
Qed.

(** X11.  When the client returns no error it acts on and a result that is not
    a dictionary, the iteration ends at [result.get] with an
    [AttributeError]: so it is for a body that is a JSON list, string,
    number or [null], and for a failure whose message is empty.  The pass
    stops there: the request for this URL is the last one sent, nothing
    is appended, and no later URL is tried. *)
Theorem unusable_answer_aborts_the_pass (n i : nat) (s : string)
    (rest : list pyval) (acc : outcome) (result : pyval)
    (error : option string) :
  returned (client i (PStr s)) = Some (result, error) →
  error_set error = false →
  (∀ d, result ≠ PDict d) →
  ∃ msg,
    from n i (PStr s :: rest) acc
    = ([Progress (i + 1) n;
        StatusText (i + 1) n (PStr (substring 0 50 s));
        HttpPost (request_of (PStr s))],
       inl (Exn AttributeError msg)).
Proof.
  intros Hc Herr Hd. rewrite returned_client in Hc.
  destruct (client_result (network i) (PStr s) api_key include_markdown)
    as [|a] eqn:Ha; [discriminate|]. injection Hc as ->.
  destruct (client_result_string (network i) s api_key include_markdown)
    as [_ Hsent].
  assert (Hraise : ∃ msg, make_result (PStr s) result
                          = inl (Exn AttributeError msg)).
  { destruct result; try (eexists; reflexivity).
    exfalso. eapply Hd. reflexivity. }
  destruct Hraise as [msg Hraise]. exists msg.
  rewrite scrape_from_unfold. unfold App.scrape_one.
  rewrite scrape_url_unfold, Hsent, Ha. destruct acc as [rs es].
  unfold bind, emit, lift, ret. simpl. rewrite Herr. simpl.
  rewrite Hraise. reflexivity.
Qed.

End Collecting.

Lemma unusable_answer_aborts_the_pass_json_list :
  ∃ msg,
    scrape_from (λ _ _, Scenario.ok_response (PList [])) "key" true 1%Qc 3 0
      Scenario.three_urls ([], [])
    = ([Progress 1 3; StatusText 1 3 (PStr "https://a.com");
        HttpPost (scrape_request (PStr "https://a.com") "key" true)],
       inl (Exn AttributeError msg)).
Proof.
  apply (unusable_answer_aborts_the_pass
           (λ _ _, Scenario.ok_response (PList [])) "key" true 1%Qc 3 0
           "https://a.com" _ ([], []) (PList []) None).
  - vm_compute. reflexivity.
  - reflexivity.
  - discriminate.
Defined.

Lemma pass_collects_scenario :
  ∃ log results errors,
    scrape_all Scenario.two_then_fail "key" true 1%Qc Scenario.three_urls
    = (log, inr (results, errors))
    ∧ map full_result results
      = [Scenario.example_payload; Scenario.second_payload]
    ∧ errors
      = [ErrorRow (PStr "https://c.com")
           ("500 Server Error: Internal Server Error for url: "
            +:+ "https://scrape.serper.dev/")].
Proof.
  eexists _, _, _. split; [vm_compute; reflexivity|].
  split; [reflexivity|].
  eassert (H : scrape_all Scenario.two_then_fail "key" true 1%Qc
                 Scenario.three_urls = (_, inr (_, _)))
    by (vm_compute; reflexivity).
  apply pass_collects_what_the_client_returns in H as (_ & He & _).
  vm_compute in He. exact He.
Defined.

Section AnyPass.

Variable network : nat → request → res response.
Variable api_key : string.
Variable include_markdown : bool.
Variable rate_limit : Qc.

Abbreviation request_of url := (scrape_request url api_key include_markdown).
Abbreviation one n i url acc :=
  (scrape_one network api_key include_markdown rate_limit n i url acc).
Abbreviation from n i urls acc :=
  (scrape_from network api_key include_markdown rate_limit n i urls acc).
Abbreviation pass urls :=
  (scrape_all network api_key include_markdown rate_limit urls).

(** An iteration that raises has sent at most its request and has not
    paused. *)
Lemma scrape_one_raises n i url acc log e :
  one n i url acc = (log, inl e) →
  schedule log = [] ∨ schedule log = [HttpPost (request_of url)].
Proof.
  destruct acc as [rs es]. unfold App.scrape_one.
  rewrite scrape_url_unfold. unfold sent, client_result.
  destruct (json_dumps _) as [e0|p].
  { unfold bind, emit, lift, ret.
    destruct (py_slice_to 50 url) as [e1|shown]; simpl;
      intros [= <- <-]; left; reflexivity. }
  unfold bind, emit, lift, ret. simpl.
  destruct (py_slice_to 50 url) as [e0|shown]; simpl;
    [intros [= <- <-]; left; reflexivity|].
  destruct (client_value _) as [e0|[result error]]; simpl;
    [intros [= <- <-]; right; reflexivity|].
  destruct (error_set error); simpl.
  - destruct (i <? n - 1)%nat; simpl; [|discriminate].
    unfold sleep. destruct (decide (rate_limit < 0)%Qc); simpl;
      [|discriminate].
    intros [= <- <-]. right. reflexivity.
  - destruct (make_result url result) as [e0|row]; simpl;
      [intros [= <- <-]; right; reflexivity|].
    destruct (i <? n - 1)%nat; simpl; [|discriminate].
    unfold sleep. destruct (decide (rate_limit < 0)%Qc); simpl;
      [|discriminate].
    intros [= <- <-]. right. reflexivity.
Qed.

Lemma throttled_cons (r : request) (rest : list request) :
  throttled rate_limit (r :: rest)
  = HttpPost r
    :: (match rest with [] => [] | _ :: _ => [Sleep rate_limit] end)
    ++ throttled rate_limit rest.
Proof. destruct rest; reflexivity. Qed.

Lemma scrape_from_schedule_prefix n i urls acc :
  i + length urls = n →
  schedule (effects (from n i urls acc))
    `prefix_of` throttled rate_limit (map (λ u, request_of u) urls).
Proof.
  revert i acc. induction urls as [|u rest IH]; intros i acc Hn.
  - apply prefix_nil.
  - rewrite scrape_from_unfold. unfold bind.
    destruct (one n i u acc) as [log1 [e|acc1]] eqn:H1.
    + unfold effects. simpl fst.
      rewrite map_cons, throttled_cons.
      apply scrape_one_raises in H1 as [->| ->]; [apply prefix_nil|].
      apply prefix_cons, prefix_nil.
    + destruct acc as [rs es].
      apply scrape_one_inv in H1 as (shown & _ & -> & _).
      specialize (IH (S i) acc1 ltac:(simpl in Hn; lia)).
      destruct (from n (S i) rest acc1) as [log2 r]. unfold effects in *.
      cbn [fst] in *. rewrite schedule_app, schedule_iteration.
      rewrite map_cons, throttled_cons. simpl app.
      apply prefix_cons. unfold pause. simpl in Hn.
      destruct rest as [|u' rest'].
      * replace (i <? n - 1)%nat with false
          by (symmetry; apply Nat.ltb_ge; simpl in Hn; lia).
        exact IH.
      * replace (i <? n - 1)%nat with true
          by (symmetry; apply Nat.ltb_lt; simpl in Hn; lia).
        apply (prefix_app [Sleep rate_limit]). exact IH.
Qed.

Lemma posts_throttled (delay : Qc) (requests : list request) :
  posts (throttled delay requests) = requests.
Proof.
  induction requests as [|r rest IH]; [reflexivity|].
  destruct rest as [|r' rest']; [reflexivity|].
  change (posts (throttled delay (r :: r' :: rest')))
    with (r :: posts (throttled delay (r' :: rest'))).
  rewrite IH. reflexivity.
Qed.

Lemma posts_schedule (log : list event) : posts (schedule log) = posts log.
Proof.
  induction log as [|e log IH]; [reflexivity|].
  unfold schedule in *.
  destruct e;
    first [ rewrite filter_cons_True by reflexivity
          | rewrite filter_cons_False by (simpl; congruence) ];
    simpl; (exact IH || (f_equal; exact IH)).
Qed.

(** X12.  Whether a pass runs to its end or an exception leaves the loop, what
    it has done is a beginning of the throttled schedule: the requests
    sent are those of the first URLs of the input, one each and in input
    order, a pause of [rate_limit] stands between two requests and
    nowhere else, and there are never more than [N - 1] pauses. *)
Theorem every_pass_follows_the_schedule (urls : list pyval) :
  schedule (effects (pass urls))
    `prefix_of` throttled rate_limit (map (λ u, request_of u) urls)
  ∧ posts (effects (pass urls)) `prefix_of` map (λ u, request_of u) urls
  ∧ sleeps (effects (pass urls))
      `prefix_of` replicate (length urls - 1) rate_limit.
Proof.
  assert (H : schedule (effects (pass urls))
                `prefix_of` throttled rate_limit
                              (map (λ u, request_of u) urls))
    by (apply scrape_from_schedule_prefix; reflexivity).
  split; [exact H|]. destruct H as [k Hk]. split.
  - exists (posts k).
    rewrite <- (posts_throttled rate_limit (map _ urls)), Hk, posts_app.
    rewrite posts_schedule. reflexivity.
  - exists (sleeps k).
    rewrite <- (length_map (λ u, request_of u) urls).
    rewrite <- (sleeps_throttled rate_limit (map _ urls)), Hk, sleeps_app.
    rewrite sleeps_schedule. reflexivity.
Qed.

End AnyPass.

(* ===================================================================== *)
(** ** More on the result tabs                                            *)
(* ===================================================================== *)

Section Tabs.

Lemma length_append (s t : string) :
  String.length (s +:+ t) = (String.length s + String.length t)%nat.
Proof. induction s as [|c s IH]; simpl; [reflexivity|]. rewrite IH. lia. Qed.

Lemma length_substring_0 (n : nat) (s : string) :
  (n ≤ String.length s)%nat → String.length (substring 0 n s) = n.
Proof.
  revert s. induction n as [|n IH]; intros s Hn.
  - destruct s; reflexivity.
  - destruct s as [|c s]; simpl in *; [lia|]. rewrite IH by lia. reflexivity.
Qed.

Lemma substring_0_prefix (n : nat) (s : string) :
  ∃ rest, s = substring 0 n s +:+ rest.
Proof.
  revert s. induction n as [|n IH]; intros s.
  - exists s. destruct s; reflexivity.
  - destruct s as [|c s]; simpl; [exists ""; reflexivity|].
    destruct (IH s) as [rest Hrest]. exists rest.
    change (String c s = String c (substring 0 n s +:+ rest)).
    rewrite <- Hrest. reflexivity.
Qed.

Lemma truncate_50_str (s : string) :
  truncate_50 (PStr s) = inr (PStr (shortened s)).
Proof.
  unfold truncate_50, shortened, res_bind. simpl.
  destruct (50 <? String.length s)%nat; reflexivity.
Qed.

(** X13.  A title or description that is a string is shown whole in the summary
    when it has at most 50 characters; a longer one is replaced by its
    first 50 characters followed by "...", 53 characters in all. *)
Theorem summary_text_is_cut_at_50 (s : string) :
  ∃ t, truncate_50 (PStr s) = inr (PStr t)
       ∧ ((String.length s ≤ 50)%nat → t = s)
       ∧ ((50 < String.length s)%nat →
          String.length t = 53
          ∧ ∃ head rest, t = head +:+ "..." ∧ s = head +:+ rest
                         ∧ String.length head = 50).
Proof.
  exists (shortened s). split; [apply truncate_50_str|].
  unfold shortened. split.
  - intros H. replace (50 <? String.length s)%nat with false
      by (symmetry; apply Nat.ltb_ge; exact H). reflexivity.
  - intros H. replace (50 <? String.length s)%nat with true
      by (symmetry; apply Nat.ltb_lt; exact H).
    assert (Hlen : String.length (substring 0 50 s) = 50)
      by (apply length_substring_0; lia).
    split; [rewrite length_append, Hlen; reflexivity|].
    destruct (substring_0_prefix 50 s) as [rest Hrest].
    exists (substring 0 50 s), rest. auto.
Qed.

Variable include_markdown : bool.
Variable now : string.

Abbreviation shown urls acc := (show_results include_markdown now urls acc).

Lemma res_map_fails {A B} (f : A → res B) (l : list A) (a : A) :
  a ∈ l → (∃ e, f a = inl e) → ∃ e, res_map f l = inl e.
Proof.
  intros Hin Hfail. induction l as [|b l IH]; [inversion Hin|].
  simpl. unfold res_bind. destruct (f b) as [e|y] eqn:Hb; [eauto|].
  apply elem_of_cons in Hin as [->|Hin].
  - destruct Hfail as [e He]. congruence.
  - destruct (IH Hin) as [e ->]. eauto.
Qed.

Lemma summary_of_unsized (r : result_row) :
  unsized (title r) = true ∨ unsized (description r) = true →
  ∃ e, summary_of r = inl e.
Proof.
  unfold unsized, summary_of, truncate_50, res_bind. intros [H|H].
  - destruct (py_len (title r)); [eauto|discriminate].
  - destruct (py_len (title r)) as [|n]; [eauto|].
    destruct (if (50 <? n)%nat then _ else _); [eauto|].
    destruct (py_len (description r)); [eauto|discriminate].
Qed.

(** X14.  One entry whose title or description has no length (a payload with
    ["title": null], or a number) stops the page: the summary raises
    while its rows are built, after the success message and before any
    table or download, so nothing of the pass can be downloaded, not even
    the errors. *)
Theorem unsized_title_stops_the_page (urls : list pyval)
    (results : list result_row) (errors : list error_row)
    (r : result_row) :
  r ∈ results →
  unsized (title r) = true ∨ unsized (description r) = true →
  ∃ e, shown urls (results, errors)
       = ([ClearProgress; StSuccess (length results) (length urls)], inl e).
Proof.
  intros Hin Hr.
  destruct (res_map_fails summary_of results r Hin (summary_of_unsized r Hr))
    as [e He].
  exists e. unfold show_results, summary_tab, bind, emit, lift.
  destruct results as [|r0 rest]; [inversion Hin|].
  cbn [nonempty]. rewrite He. reflexivity.
Qed.

End Tabs.

Lemma unsized_title_stops_the_page_null_title :
  ∃ row e,
    make_result a_com (PDict (<["title" := PNone]> ∅)) = inr row
    ∧ show_results true "now" [a_com] ([row], [])
      = ([ClearProgress; StSuccess 1 1], inl e).
Proof.
  eexists _. 
  destruct (unsized_title_stops_the_page true "now" [a_com]
              [ResultRow a_com PNone (PStr "N/A") 0 0
                 (PDict (<["title" := PNone]> ∅))] []
              (ResultRow a_com PNone (PStr "N/A") 0 0
                 (PDict (<["title" := PNone]> ∅))))
    as [e He].
  - apply list_elem_of_here.
  - left. reflexivity.
  - exists e. split; [vm_compute; reflexivity|exact He].
Defined.

Section Downloads.

Variable include_markdown : bool.
Variable now : string.

Abbreviation shown urls acc := (show_results include_markdown now urls acc).












End Downloads.


(** Two entries with the same text: the second preview is refused, and
    the page stops in the detail tab, after the summary and before the
    errors and the aggregate download. *)
Example identical_previews_stop_the_page :
  let row u := ResultRow u (PStr "Example") (PStr "N/A") 5 0
                 Scenario.example_payload in
  forallb (displayable true) [row a_com; row b_com] = true
  ∧ page_previews true [row a_com; row b_com] = ["hello..."; "hello..."]
  ∧ (show_results true "now" [a_com; b_com] ([row a_com; row b_com], [])).2
    = inl (Exn DuplicateWidgetID
             "There are multiple identical st.text_area widgets")
  ∧ downloads (effects (show_results true "now" [a_com; b_com]
                          ([row a_com; row b_com], [])))
    = [SummaryCsv (map summary_row_of [row a_com; row b_com]);
       ResultJson 1 Scenario.example_payload].
Proof. cbv zeta. repeat split; vm_compute; reflexivity. Qed.

(* ===================================================================== *)
(** ** The phases of a pass over the script                               *)
(* ===================================================================== *)

Section Phases.

Lemma effects_bind {A B} (m : M A) (k : A → M B) :
  effects (bind m k)
  = effects m ++ match m.2 with
                 | inr a => effects (k a)
                 | inl _ => []
                 end.
Proof.
  destruct m as [l [e|a]]; unfold bind, effects; simpl.
  - rewrite app_nil_r. reflexivity.
  - destruct (k a). reflexivity.
Qed.

Lemma Forall_bind {A B} (P : event → Prop) (m : M A) (k : A → M B) :
  Forall P (effects m) → (∀ a, Forall P (effects (k a))) →
  Forall P (effects (bind m k)).
Proof.
  intros Hm Hk. rewrite effects_bind. apply Forall_app. split; [exact Hm|].
  destruct (m.2); [constructor|apply Hk].
Qed.

Lemma Forall_lift {A} (P : event → Prop) (r : res A) :
  Forall P (effects (lift r)).
Proof. constructor. Qed.

Lemma Forall_ret {A} (P : event → Prop) (a : A) : Forall P (effects (ret a)).
Proof. constructor. Qed.

Lemma Forall_emit (P : event → Prop) (e : event) :
  P e → Forall P (effects (emit e)).
Proof. intros H. repeat constructor. exact H. Qed.

Variable network : nat → request → res response.
Variable api_key : string.
Variable include_markdown : bool.
Variable rate_limit : Qc.
Variable now : string.
Variables read_csv read_excel : UploadedFile → res DataFrame.

(** The loop offers no download. *)
Lemma scrape_one_no_download n i url acc :
  Forall no_download
    (effects (scrape_one network api_key include_markdown rate_limit
                n i url acc)).
Proof.
  destruct acc as [rs es]. unfold scrape_one.
  apply Forall_bind; [apply Forall_emit; exact I|intros _].
  apply Forall_bind; [apply Forall_lift|intros shown].
  apply Forall_bind; [apply Forall_emit; exact I|intros _].
  apply Forall_bind;
    [rewrite scrape_url_unfold; unfold effects, sent; cbn [fst];
     destruct (json_dumps _); repeat constructor
    |intros [result error]].
  apply Forall_bind.
  - destruct (error_set error); [apply Forall_ret|].
    apply Forall_bind; [apply Forall_lift|intros; apply Forall_ret].
  - intros acc'. apply Forall_bind; [|intros; apply Forall_ret].
    destruct (i <? n - 1)%nat; [|apply Forall_ret].
    unfold sleep. destruct (decide _); repeat constructor.
Qed.

Lemma scrape_from_no_download n i urls acc :
  Forall no_download
    (effects (scrape_from network api_key include_markdown rate_limit
                n i urls acc)).
Proof.
  revert i acc. induction urls as [|u rest IH]; intros i acc.
  - constructor.
  - rewrite scrape_from_unfold.
    apply Forall_bind; [apply scrape_one_no_download|intros; apply IH].
Qed.

(** The page sends nothing and never pauses. *)
Lemma preview_offline (full : pyval) (key : string) (seen : list string) :
  Forall offline (effects (preview full key seen)).
Proof.
  unfold preview.
  apply Forall_bind; [apply Forall_lift|intros value].
  unfold text_area. destruct value; try destruct (str_in _ _);
    repeat constructor.
Qed.

Lemma detail_panels_offline i results seen :
  Forall offline (effects (detail_panels include_markdown i results seen)).
Proof.
  revert i seen.
  induction results as [|r rest IH]; intros i seen; [constructor|].
  simpl. apply Forall_bind; [|intros; apply IH].
  unfold detail_panel.
  apply Forall_bind; [apply Forall_lift|intros _].
  apply Forall_bind; [apply Forall_emit; reflexivity|intros _].
  apply Forall_bind; [apply Forall_lift|intros text].
  apply Forall_bind;
    [destruct (truthy text); [apply preview_offline|apply Forall_ret]
    |intros seen1].
  apply Forall_bind.
  - destruct include_markdown; [|apply Forall_ret].
    apply Forall_bind; [apply Forall_lift|intros markdown].
    destruct (truthy markdown); [apply preview_offline|apply Forall_ret].
  - intros seen2. apply Forall_bind; [|intros; apply Forall_ret].
    apply Forall_emit. reflexivity.
Qed.

Lemma show_results_offline urls acc :
  Forall offline (effects (show_results include_markdown now urls acc)).
Proof.
  destruct acc as [results errors]. unfold show_results.
  apply Forall_bind; [apply Forall_emit; reflexivity|intros _].
  apply Forall_bind; [apply Forall_emit; reflexivity|intros _].
  apply Forall_bind.
  { unfold summary_tab. destruct (nonempty results); [|apply Forall_ret].
    apply Forall_bind; [apply Forall_lift|intros rows].
    apply Forall_bind; intros; apply Forall_emit; reflexivity. }
  intros _. apply Forall_bind.
  { unfold details_tab. destruct (nonempty results); [|apply Forall_ret].
    apply Forall_bind; [apply detail_panels_offline|].
    intros; apply Forall_ret. }
  intros _. apply Forall_bind.
  { unfold errors_tab. destruct (nonempty errors).
    - apply Forall_bind; intros; apply Forall_emit; reflexivity.
    - apply Forall_emit. reflexivity. }
  intros _. destruct (nonempty results);
    [apply Forall_emit; reflexivity|apply Forall_ret].
Qed.

Lemma read_urls_quiet (file : UploadedFile) :
  ∃ log r, read_urls_from_file read_csv read_excel file = (log, inr r)
           ∧ Forall no_download log ∧ Forall offline log.
Proof.
  destruct (read_urls_cases read_csv read_excel file)
    as [->|[[e ->]|[df ->]]].
  - eexists _, _. split; [reflexivity|]. split; repeat constructor.
  - eexists _, _. split; [reflexivity|]. split; repeat constructor.
  - destruct (extract_urls_log df) as (log & r & -> & Hlog).
    destruct r as [e|urls]; simpl; eexists _, _; (split; [reflexivity|]);
      destruct Hlog as [->|[w ->]]; split; repeat constructor.
Qed.

(** X16.  Whatever is uploaded and however the pass goes, the effects of the
    script fall into two phases: first the reading of the file and the
    scrape loop, in which no download is offered, then the page, which
    sends no request and never pauses.  No download is offered before the
    last request has been answered, and none at all when an exception
    leaves the loop. *)
Theorem requests_come_before_downloads (uploaded : option UploadedFile)
    (button : bool) :
  ∃ before after,
    effects (main network api_key include_markdown rate_limit now
                  read_csv read_excel uploaded button)
    = before ++ after
    ∧ Forall no_download before
    ∧ Forall offline after
    ∧ (∀ file urls read_log log e,
         uploaded = Some file → button = true → api_key ≠ "" →
         read_urls_from_file read_csv read_excel file
         = (read_log, inr (Some urls)) →
         scrape_all network api_key include_markdown rate_limit urls
         = (log, inl e) →
         urls ≠ [] →
         main network api_key include_markdown rate_limit now
              read_csv read_excel uploaded button
         = (read_log ++ [FileSummary (length urls) (take 10 urls)] ++ log,
            inl e)).
Proof.
  assert (Hsplit : ∃ before after,
            effects (main network api_key include_markdown rate_limit now
                          read_csv read_excel uploaded button)
            = before ++ after
            ∧ Forall no_download before ∧ Forall offline after).
  { unfold main. destruct uploaded as [file|].
    - destruct (read_urls_quiet file) as (rlog & r & -> & Hd & Ho).
      rewrite effects_bind. cbn [effects fst snd].
      destruct r as [[|u0 us]|];
        [exists rlog, []; split; [reflexivity|]; split;
           [exact Hd|constructor]
        |
        |exists rlog, []; split; [reflexivity|]; split;
           [exact Hd|constructor]].
      rewrite effects_bind. cbn [emit effects fst snd].
      destruct button.
      + destruct (negb (truthy (PStr api_key))).
        * eexists (rlog ++ [_]), [_]. rewrite <- app_assoc.
          split; [reflexivity|]. split.
          -- apply Forall_app. split; [exact Hd|repeat constructor].
          -- repeat constructor.
        * rewrite effects_bind.
          eexists (rlog ++ [_] ++ effects (scrape_all _ _ _ _ (u0 :: us))), _.
          split; [rewrite <- !app_assoc; reflexivity|]. split.
          -- apply Forall_app. split; [exact Hd|].
             apply Forall_app. split; [repeat constructor|].
             apply scrape_from_no_download.
          -- destruct (_.2); [constructor|apply show_results_offline].
      + exists (rlog ++ [FileSummary (length (u0 :: us))
                           (take 10 (u0 :: us))]), [].
        rewrite !app_nil_r. split; [reflexivity|]. split; [|constructor].
        apply Forall_app. split; [exact Hd|repeat constructor].
    - exists [], [Instructions; DownloadButton SampleCsv].
      split; [reflexivity|]. split; repeat constructor. }
  destruct Hsplit as (before & after & Heq & Hb & Ha).
  exists before, after. split; [exact Heq|]. split; [exact Hb|].
  split; [exact Ha|].
  intros file urls read_log log e -> -> Hkey Hread Hrun Hurls.
  unfold main. rewrite Hread. unfold bind at 1.
  destruct urls as [|u0 us]; [congruence|].
  apply truthy_str in Hkey. rewrite Hkey. cbn [negb].
  unfold bind at 1, emit. unfold bind. rewrite Hrun. reflexivity.
Qed.

End Phases.

Lemma requests_come_before_downloads_aborted :
  ∃ log e,
    scrape_all (λ _ _, Scenario.ok_response (PList [])) "key" true 1%Qc
      [a_com; b_com] = (log, inl e)
    ∧ main (λ _ _, Scenario.ok_response (PList [])) "key" true 1%Qc "now"
        (λ _, inr url_sheet) not_a_workbook
        (Some (Uploaded "urls.csv" "")) true
      = ([] ++ [FileSummary 2 [a_com; b_com]] ++ log, inl e).
Proof.
  eexists _, _. split; [vm_compute; reflexivity|].
  destruct (requests_come_before_downloads
              (λ _ _, Scenario.ok_response (PList [])) "key" true 1%Qc "now"
              (λ _, inr url_sheet) not_a_workbook
              (Some (Uploaded "urls.csv" "")) true)
    as (before & after & _ & _ & _ & Habort).
  apply (Habort (Uploaded "urls.csv" "") [a_com; b_com] []);
    try reflexivity; try discriminate.
Defined.

Lemma entry_is_built_iff_accepted_number_as_text :
  payload_accepted (PDict (<["text" := PInt 5]> ∅)) = false
  ∧ (∃ msg, make_result a_com (PList []) = inl (Exn AttributeError msg))
  ∧ ∃ e, make_result a_com (PDict (<["text" := PInt 5]> ∅)) = inl e
         ∧ exn_cls e = TypeError.
Proof.
  destruct (entry_is_built_iff_accepted a_com (PList []))
    as (_ & Hattr & _).
  destruct (entry_is_built_iff_accepted a_com
              (PDict (<["text" := PInt 5]> ∅))) as (_ & _ & Htype).
  split; [vm_compute; reflexivity|].
  split; [apply Hattr; discriminate|].
  eexists. split; [vm_compute; reflexivity|].
  eapply Htype; [reflexivity|vm_compute; reflexivity].
Defined.

Lemma summary_text_is_cut_at_50_examples :
  truncate_50 (PStr "Example") = inr (PStr "Example")
  ∧ ∃ t, truncate_50
           (PStr "An example of a page title that is longer than fifty characters")
         = inr (PStr t)
         ∧ String.length t = 53.
Proof.
  split.
  - destruct (summary_text_is_cut_at_50 "Example") as (t & -> & Hshort & _).
    rewrite Hshort; [reflexivity|]. simpl. lia.
  - destruct (summary_text_is_cut_at_50
                "An example of a page title that is longer than fifty characters")
      as (t & -> & _ & Hlong).
    exists t. split; [reflexivity|]. apply Hlong. simpl. lia.
Defined.
